(** * Trading journal: the analytics engine

    A shallow embedding of the aggregation code of the journal
    (journal/models.py, journal/management/commands/analytics.py and the
    stand-alone run_analytics.py) together with the properties its
    specification states about it, followed by the validation of a trade,
    the command that populates the catalog of mistakes
    (journal/management/commands/populate_mistakes.py) and the views that
    delete and list trades (journal/views.py), with further properties of
    the code.

    Numeric model.  The three [DecimalField(max_digits=20, decimal_places=8)]
    columns of a trade are held as their integer coefficient, that is the
    number of 1e-8 units; a P&L, a product of two such values, is the
    coefficient in 1e-16 units.  Sums of P&L are sums of coefficients.
    Quotients (Python's [/]) are rationals.  The rounding of the decimal
    context to 28 significant digits is written out in [context_fix] and
    [context_pnl]; [pnl] is the value before it, and the two agree for
    coefficients of at most 28 digits. *)

From Stdlib Require Import ZArith QArith List String Bool Arith Lia.
From Stdlib Require Import Permutation Sorted.
Import ListNotations.

Local Open Scope string_scope.
Local Open Scope Z_scope.
Local Open Scope list_scope.

(** ** Data model (journal/models.py) *)

Record Mistake : Type := mkMistake {
  mistake_pk : nat;
  name : string;
  category : string
}.

Record Trade : Type := mkTrade {
  trade_pk : nat;
  user : nat;                  (* foreign key: the owner's primary key *)
  side : string;
  quantity : Z;
  entry_price : Z;
  entry_date : Z;
  exit_price : option Z;       (* null=True *)
  exit_date : option Z;        (* null=True *)
  mistakes : list nat          (* many-to-many: primary keys of the tags *)
}.

Record User : Type := mkUser {
  user_pk : nat;
  username : string
}.

(** The tables the engine reads.  [Mistake_objects] is listed in the order
    in which [Mistake.objects.all()] enumerates it, which [Meta.ordering]
    makes the order by category, then by name. *)
Record database : Type := mkDatabase {
  User_objects : list User;
  Trade_objects : list Trade;
  Mistake_objects : list Mistake
}.

(** [Trade.pnl]: [None] when there is no exit price, otherwise directional
    on [side]; every side other than ['buy'] takes the short branch. *)
Definition pnl (t : Trade) : option Z :=
  match exit_price t with
  | None => None
  | Some x =>
      if String.eqb (side t) "buy"
      then Some ((x - entry_price t) * quantity t)
      else Some ((entry_price t - x) * quantity t)
  end.

(** ** The decimal context

    Python rounds the result of every decimal operation to [prec]
    significant digits, ties to even.  [context_fix c] is the rounded
    coefficient paired with the number of digits dropped: it stands for
    [fst * 10 ^ snd]. *)

Definition prec : Z := 28.

Fixpoint excess_digits_fuel (fuel : nat) (c : Z) : Z :=
  match fuel with
  | O => 0
  | S fuel' => if c <? 10 ^ prec then 0 else 1 + excess_digits_fuel fuel' (c / 10)
  end.

Definition excess_digits (c : Z) : Z :=
  excess_digits_fuel (Z.to_nat (Z.log2 c + 1)) c.

Definition round_half_even (c k : Z) : Z :=
  let p := 10 ^ k in
  let q := c / p in
  let r := c mod p in
  if (p <? 2 * r) || ((p =? 2 * r) && Z.odd q) then q + 1 else q.

Definition context_fix_magnitude (c : Z) : Z * Z :=
  let k := excess_digits c in
  if k =? 0 then (c, 0)
  else
    let q := round_half_even c k in
    if q =? 10 ^ prec then (10 ^ (prec - 1), k + 1) else (q, k).

Definition context_fix (c : Z) : Z * Z :=
  if c <? 0
  then let '(q, k) := context_fix_magnitude (- c) in (- q, k)
  else context_fix_magnitude c.

(** A rounded value times a coefficient, rounded again. *)
Definition context_mul (a : Z * Z) (b : Z) : Z * Z :=
  let '(q, k) := context_fix (fst a * b) in (q, k + snd a).

(** [Trade.pnl] with the rounding of the subtraction and of the
    multiplication written out. *)
Definition context_pnl (t : Trade) : option (Z * Z) :=
  match exit_price t with
  | None => None
  | Some x =>
      if String.eqb (side t) "buy"
      then Some (context_mul (context_fix (x - entry_price t)) (quantity t))
      else Some (context_mul (context_fix (entry_price t - x)) (quantity t))
  end.

Definition is_some {A : Type} (o : option A) : bool :=
  match o with Some _ => true | None => false end.

(** [Trade.is_closed] *)
Definition is_closed (t : Trade) : bool :=
  is_some (exit_price t) && is_some (exit_date t).

(** The logical-consistency check of [Trade.clean]: exit price and exit
    date are given together or not at all. *)
Definition exit_consistent (t : Trade) : Prop :=
  is_some (exit_price t) = is_some (exit_date t).

(** [Mistake.get_category_display()]: the label of the choice, or the raw
    value when it is not one of the choices. *)
Definition category_choices : list (string * string) :=
  [ ("entry", "Entry Timing");
    ("exit", "Exit Timing");
    ("position", "Position Sizing");
    ("risk", "Risk Management");
    ("psychology", "Psychology/Emotion");
    ("analysis", "Analysis/Research");
    ("execution", "Trade Execution");
    ("other", "Other") ].

Fixpoint choices_get (choices : list (string * string)) (v : string) : string :=
  match choices with
  | [] => v
  | (code, label) :: rest => if String.eqb code v then label else choices_get rest v
  end.

Definition get_category_display (m : Mistake) : string :=
  choices_get category_choices (category m).

(** ** Query sets

    A query set is the list of its rows.  [count] is its length. *)

Definition QuerySet : Type := list Trade.

Definition count {A : Type} (qs : list A) : nat := List.length qs.

Definition exit_price__isnull (t : Trade) : bool := negb (is_some (exit_price t)).
Definition exit_date__isnull (t : Trade) : bool := negb (is_some (exit_date t)).

Definition qs_filter (p : Trade -> bool) (qs : QuerySet) : QuerySet :=
  List.filter p qs.

Definition qs_exclude (p : Trade -> bool) (qs : QuerySet) : QuerySet :=
  List.filter (fun t => negb (p t)) qs.

(** [user.trades.all()] *)
Definition user_trades (db : database) (u : User) : QuerySet :=
  qs_filter (fun t => Nat.eqb (user t) (user_pk u)) (Trade_objects db).

(** [qs.exclude(exit_price__isnull=True).exclude(exit_date__isnull=True)] *)
Definition closed_of (qs : QuerySet) : QuerySet :=
  qs_exclude exit_date__isnull (qs_exclude exit_price__isnull qs).

(** [qs.filter(Q(exit_price__isnull=True) | Q(exit_date__isnull=True))] *)
Definition open_of (qs : QuerySet) : QuerySet :=
  qs_filter (fun t => exit_price__isnull t || exit_date__isnull t) qs.

(** [trade.pnl or 0]: [None] and a zero decimal are both falsy. *)
Definition or_0 (p : option Z) : Z :=
  match p with
  | None => 0
  | Some v => if v =? 0 then 0 else v
  end.

(** [sum((trade.pnl or 0) for trade in qs)]: a left fold from 0. *)
Definition sum_pnl (qs : QuerySet) : Z :=
  fold_left (fun acc t => acc + or_0 (pnl t)) qs 0.

(** Rows of the join of the trades with the through table of [mistakes]:
    one row per tag that satisfies [p]. *)
Definition join_mistakes (p : nat -> bool) (qs : QuerySet) : QuerySet :=
  flat_map (fun t => map (fun _ => t) (List.filter p (mistakes t))) qs.

(** [qs.filter(mistakes=mistake)] *)
Definition filter_mistakes_eq (m : Mistake) (qs : QuerySet) : QuerySet :=
  join_mistakes (Nat.eqb (mistake_pk m)) qs.

Definition pk_in (objs : list Mistake) (tag : nat) : bool :=
  existsb (fun m => Nat.eqb (mistake_pk m) tag) objs.

(** [qs.filter(mistakes__in=objs)] *)
Definition filter_mistakes_in (objs : list Mistake) (qs : QuerySet) : QuerySet :=
  join_mistakes (pk_in objs) qs.

(** [qs.exclude(mistakes__in=objs)]: the rows with no tag among [objs]. *)
Definition exclude_mistakes_in (objs : list Mistake) (qs : QuerySet) : QuerySet :=
  qs_exclude (fun t => existsb (pk_in objs) (mistakes t)) qs.

Definition option_Z_eqb (a b : option Z) : bool :=
  match a, b with
  | Some x, Some y => x =? y
  | None, None => true
  | _, _ => false
  end.

(** Equality of two result rows, column by column. *)
Definition row_eqb (a b : Trade) : bool :=
  Nat.eqb (trade_pk a) (trade_pk b) && Nat.eqb (user a) (user b)
  && String.eqb (side a) (side b) && (quantity a =? quantity b)
  && (entry_price a =? entry_price b) && (entry_date a =? entry_date b)
  && option_Z_eqb (exit_price a) (exit_price b)
  && option_Z_eqb (exit_date a) (exit_date b).

(** [qs.distinct()] *)
Fixpoint distinct (qs : QuerySet) : QuerySet :=
  match qs with
  | [] => []
  | t :: rest => if existsb (row_eqb t) rest then distinct rest else t :: distinct rest
  end.

(** ** Python's stable sort, [list.sort(key=..., reverse=True)]

    Descending on the key; entries with equal keys keep their order. *)

Section PySort.
Context {A : Type} (key : A -> nat).

Fixpoint insert_desc (x : A) (l : list A) : list A :=
  match l with
  | [] => [x]
  | y :: l' => if Nat.ltb (key x) (key y) then y :: insert_desc x l' else x :: l
  end.

Definition sort_reverse (l : list A) : list A :=
  fold_right insert_desc [] l.

(** The order the sort establishes. *)
Definition desc (a b : A) : Prop := (key b <= key a)%nat.
End PySort.

(** ** Insertion-ordered dictionaries with string keys *)

Section Dict.
Context {V : Type}.

Definition dict : Type := list (string * V).

Fixpoint dict_get (d : dict) (k : string) : option V :=
  match d with
  | [] => None
  | (k', v) :: rest => if String.eqb k' k then Some v else dict_get rest k
  end.

Definition dict_contains (d : dict) (k : string) : bool := is_some (dict_get d k).

(** [d[k] = v]: in place when the key is present, appended otherwise. *)
Fixpoint dict_set (d : dict) (k : string) (v : V) : dict :=
  match d with
  | [] => [(k, v)]
  | (k', v') :: rest =>
      if String.eqb k' k then (k', v) :: rest else (k', v') :: dict_set rest k v
  end.
End Dict.
Arguments dict : clear implicits.

(** ** Report output and exceptions *)

Record mistake_stat : Type := mkStat {
  stat_name : string;
  stat_category : string;
  frequency : nat;
  avg_pnl : Q;
  total_pnl : Z
}.

Record category_data : Type := mkCategoryData {
  cat_count : nat;
  cat_total_pnl : Z
}.

(** One constructor per line written; the payload is what the line
    formats. *)
Inductive line : Type :=
| LAnalyzingUser (username : string)
| LUserNotFound (username : string)
| LUserHeader (username : string)
| LSectionTitle (n : nat)
| LClosed (closed_count : nat) (closed_pnl : Z)
| LOpen (open_count : nat) (open_pnl : Z)
| LAvgClosed (avg_closed_pnl : Q)
| LCompliance (rule_followed_percentage : Q)
| LEmotional (total closed wins : nat) (win_rate : Q)
| LNonEmotional (total closed wins : nat) (win_rate : Q)
| LRateDiff (rate_diff : Q)
| LTopHeader (n : nat)
| LMistake (rank : nat) (stat_name stat_category : string)
| LMistakeDetail (frequency : nat) (avg_pnl : Q) (total_pnl : Z)
| LNoMistakes
| LCategoryHeader
| LCategory (category : string) (occurrences : nat) (avg_pnl : Q)
| LBanner
| LTotalTrades (n : nat)
| LCompleted.

Inductive exn : Type := ZeroDivisionError | DoesNotExist.

Definition exn_eqb (a b : exn) : bool :=
  match a, b with
  | ZeroDivisionError, ZeroDivisionError => true
  | DoesNotExist, DoesNotExist => true
  | _, _ => false
  end.

Inductive outcome (A : Type) : Type :=
| Return (a : A)
| Raised (e : exn).
Arguments Return {A} a.
Arguments Raised {A} e.

(** A computation maps the lines written so far to its outcome and the
    lines written when it ends; what was written before an exception
    stays written. *)
Definition io (A : Type) : Type := list line -> outcome A * list line.

Definition ret {A : Type} (a : A) : io A := fun out => (Return a, out).

Definition bind {A B : Type} (c : io A) (k : A -> io B) : io B :=
  fun out =>
    match c out with
    | (Return a, out') => k a out'
    | (Raised e, out') => (Raised e, out')
    end.

Definition write (l : line) : io unit := fun out => (Return tt, out ++ [l]).

Definition raise {A : Type} (e : exn) : io A := fun out => (Raised e, out).

(** [try: c  except e: h] *)
Definition try_except {A : Type} (c : io A) (e : exn) (h : io A) : io A :=
  fun out =>
    match c out with
    | (Return a, out') => (Return a, out')
    | (Raised e', out') => if exn_eqb e e' then h out' else (Raised e', out')
    end.

Declare Scope io_scope.
Delimit Scope io_scope with io.
Notation "x <- c ;; k" := (bind c (fun x => k))
  (at level 61, c at next level, right associativity) : io_scope.
Notation "c ;; k" := (bind c (fun _ => k))
  (at level 61, right associativity) : io_scope.
Local Open Scope io_scope.

(** Python's [a / b]; a zero divisor raises. *)
Definition truediv (a b : Z) : io Q :=
  if b =? 0 then raise ZeroDivisionError else ret (inject_Z a / inject_Z b)%Q.

(** [when c body]: [if c: body] *)
Definition when (c : bool) (body : io unit) : io unit :=
  if c then body else ret tt.

(** [for x in l: body x] *)
Fixpoint for_each {A : Type} (l : list A) (body : A -> io unit) : io unit :=
  match l with
  | [] => ret tt
  | x :: rest => body x ;; for_each rest body
  end.

(** ** The three reports (analytics.py) *)

(** [(num / den * 100) if den > 0 else 0] *)
Definition percentage_or_0 (num den : nat) : io Q :=
  if Nat.ltb 0 den
  then q <- truediv (Z.of_nat num) (Z.of_nat den) ;; ret (q * 100)%Q
  else ret 0%Q.

(** [total / n if n > 0 else 0] *)
Definition average_or_0 (total : Z) (n : nat) : io Q :=
  if Nat.ltb 0 n then truediv total (Z.of_nat n) else ret 0%Q.

Definition rule_followed_analysis (db : database) (u : User) : io unit :=
  let trades := user_trades db u in
  let closed_trades := closed_of trades in
  let closed_count := count closed_trades in
  let closed_pnl := sum_pnl closed_trades in
  let open_trades := open_of trades in
  let open_count := count open_trades in
  let open_pnl := sum_pnl open_trades in
  write (LClosed closed_count closed_pnl) ;;
  write (LOpen open_count open_pnl) ;;
  when (Nat.ltb 0 closed_count)
    (avg_closed_pnl <- truediv closed_pnl (Z.of_nat closed_count) ;;
     write (LAvgClosed avg_closed_pnl)) ;;
  when (Nat.ltb 0 (closed_count + open_count))
    (q <- truediv (Z.of_nat closed_count) (Z.of_nat (closed_count + open_count)) ;;
     write (LCompliance (q * 100)%Q)).

Definition emotional_mistakes : list string :=
  [ "FOMO trading"; "Revenge trading"; "Overconfidence";
    "Hesitation"; "Confirmation bias" ].

(** [Mistake.objects.filter(name__in=emotional_mistakes)] *)
Definition emotion_mistake_objects (db : database) : list Mistake :=
  List.filter (fun m => existsb (String.eqb (name m)) emotional_mistakes)
              (Mistake_objects db).

(** [exit_price__gt=F('entry_price')] and [exit_price__lt=F('entry_price')];
    a comparison with a null column selects nothing. *)
Definition exit_price__gt_entry (t : Trade) : bool :=
  match exit_price t with Some x => entry_price t <? x | None => false end.
Definition exit_price__lt_entry (t : Trade) : bool :=
  match exit_price t with Some x => x <? entry_price t | None => false end.

Definition is_win (t : Trade) : bool :=
  (String.eqb (side t) "buy" && exit_price__gt_entry t)
  || (String.eqb (side t) "sell" && exit_price__lt_entry t).

Definition calculate_win_rate (trade_queryset : QuerySet) : nat * nat :=
  let closed := closed_of trade_queryset in
  if Nat.eqb (count closed) 0 then (0%nat, 0%nat)
  else
    let wins := count (qs_filter is_win closed) in
    (wins, count closed).

Definition emotional_trades (db : database) (u : User) : QuerySet :=
  distinct (filter_mistakes_in (emotion_mistake_objects db) (user_trades db u)).

Definition non_emotional_trades (db : database) (u : User) : QuerySet :=
  distinct (exclude_mistakes_in (emotion_mistake_objects db) (user_trades db u)).

Definition emotion_win_rate_analysis (db : database) (u : User) : io unit :=
  let emotional_count := count (emotional_trades db u) in
  let non_emotional_count := count (non_emotional_trades db u) in
  let '(emotion_wins, emotion_total) := calculate_win_rate (emotional_trades db u) in
  let '(non_emotion_wins, non_emotion_total) :=
    calculate_win_rate (non_emotional_trades db u) in
  emotion_win_rate <- percentage_or_0 emotion_wins emotion_total ;;
  non_emotion_win_rate <- percentage_or_0 non_emotion_wins non_emotion_total ;;
  write (LEmotional emotional_count emotion_total emotion_wins emotion_win_rate) ;;
  write (LNonEmotional non_emotional_count non_emotion_total non_emotion_wins
           non_emotion_win_rate) ;;
  when (Nat.ltb 0 emotion_total && Nat.ltb 0 non_emotion_total)
    (write (LRateDiff (emotion_win_rate - non_emotion_win_rate)%Q)).

(** The loop over [Mistake.objects.all()] that fills [mistake_stats]. *)
Fixpoint collect_mistake_stats (trades : QuerySet) (all_mistakes : list Mistake)
    (mistake_stats : list mistake_stat) : io (list mistake_stat) :=
  match all_mistakes with
  | [] => ret mistake_stats
  | mistake :: rest =>
      let trade_count := count (filter_mistakes_eq mistake trades) in
      if Nat.ltb 0 trade_count then
        let mistake_trades := filter_mistakes_eq mistake trades in
        let closed_mistake_trades := closed_of mistake_trades in
        let total := sum_pnl closed_mistake_trades in
        avg <- average_or_0 total (count closed_mistake_trades) ;;
        collect_mistake_stats trades rest
          (mistake_stats ++
             [mkStat (name mistake) (get_category_display mistake) trade_count avg total])
      else collect_mistake_stats trades rest mistake_stats
  end.

(** [mistake_stats] after [mistake_stats.sort(key=frequency, reverse=True)] *)
Definition sorted_mistake_stats (db : database) (u : User) : io (list mistake_stat) :=
  mistake_stats <- collect_mistake_stats (user_trades db u) (Mistake_objects db) [] ;;
  ret (sort_reverse frequency mistake_stats).

(** [for i, stat in enumerate(stats, i): ...] *)
Fixpoint write_stats (i : nat) (stats : list mistake_stat) : io unit :=
  match stats with
  | [] => ret tt
  | stat :: rest =>
      write (LMistake i (stat_name stat) (stat_category stat)) ;;
      write (LMistakeDetail (frequency stat) (avg_pnl stat) (total_pnl stat)) ;;
      write_stats (S i) rest
  end.

(** The header, the first [n] entries and the no-data message. *)
Definition write_top (n : nat) (mistake_stats : list mistake_stat) : io unit :=
  write (LTopHeader n) ;;
  write_stats 1 (firstn n mistake_stats) ;;
  when (match mistake_stats with [] => true | _ => false end) (write LNoMistakes).

(** The loop that fills [category_stats]. *)
Definition add_to_category (category_stats : dict category_data) (stat : mistake_stat)
    : dict category_data :=
  let cat := stat_category stat in
  let category_stats :=
    if dict_contains category_stats cat then category_stats
    else dict_set category_stats cat (mkCategoryData 0 0) in
  match dict_get category_stats cat with
  | Some data =>
      dict_set category_stats cat
        (mkCategoryData (cat_count data + frequency stat)
                        (cat_total_pnl data + total_pnl stat))
  | None => category_stats
  end.

Definition build_category_stats (mistake_stats : list mistake_stat)
    : dict category_data :=
  fold_left add_to_category mistake_stats [].

(** [sorted(category_stats.items(), key=count, reverse=True)] *)
Definition sorted_categories (mistake_stats : list mistake_stat)
    : list (string * category_data) :=
  sort_reverse (fun item => cat_count (snd item)) (build_category_stats mistake_stats).

Definition write_category (item : string * category_data) : io unit :=
  let '(cat, data) := item in
  avg <- average_or_0 (cat_total_pnl data) (cat_count data) ;;
  write (LCategory cat (cat_count data) avg).

Definition mistake_frequency_analysis (db : database) (u : User) : io unit :=
  mistake_stats <- sorted_mistake_stats db u ;;
  write_top 10 mistake_stats ;;
  write LCategoryHeader ;;
  for_each (sorted_categories mistake_stats) write_category.

Definition run_analytics (db : database) (u : User) : io unit :=
  write (LSectionTitle 1) ;;
  rule_followed_analysis db u ;;
  write (LSectionTitle 2) ;;
  emotion_win_rate_analysis db u ;;
  write (LSectionTitle 3) ;;
  mistake_frequency_analysis db u.

(** [User.objects.get(username=...)]; user names are unique. *)
Definition User_objects_get (db : database) (uname : string) : io User :=
  match List.find (fun u => String.eqb (username u) uname) (User_objects db) with
  | Some u => ret u
  | None => raise DoesNotExist
  end.

(** [user.trades.exists()] *)
Definition trades_exists (db : database) (u : User) : bool :=
  match user_trades db u with [] => false | _ => true end.

(** [Command.handle]; [option_user] is [options.get('user')], and the empty
    string is falsy like [None]. *)
Definition handle (db : database) (option_user : option string) : io unit :=
  match option_user with
  | Some (String c s) =>
      let uname := String c s in
      try_except
        (u <- User_objects_get db uname ;;
         write (LAnalyzingUser uname) ;;
         run_analytics db u)
        DoesNotExist
        (write (LUserNotFound uname))
  | _ =>
      for_each (User_objects db)
        (fun u =>
           when (trades_exists db u)
             (write (LUserHeader (username u)) ;;
              run_analytics db u))
  end.

(** ** The stand-alone script (run_analytics.py)

    Its first two sections are the statements of [rule_followed_analysis]
    and [emotion_win_rate_analysis]; the third lists five entries and has
    no category breakdown. *)
Definition script_run_analytics (db : database) : io unit :=
  u <- User_objects_get db "user0" ;;
  write LBanner ;;
  write (LAnalyzingUser (username u)) ;;
  write (LTotalTrades (count (user_trades db u))) ;;
  write (LSectionTitle 1) ;;
  rule_followed_analysis db u ;;
  write (LSectionTitle 2) ;;
  emotion_win_rate_analysis db u ;;
  write (LSectionTitle 3) ;;
  mistake_stats <- sorted_mistake_stats db u ;;
  write_top 5 mistake_stats ;;
  write LCompleted.

(** * Notions used in the statements *)

(** [yields c a ls]: from any output so far, [c] returns [a] without
    raising and has written exactly the lines [ls]. *)
Definition yields {A : Type} (c : io A) (a : A) (ls : list line) : Prop :=
  forall out, c out = (Return a, out ++ ls).

(** The value of a quotient by a count, as a rational. *)
Definition quotient (a : Z) (n : nat) : Q := (inject_Z a / inject_Z (Z.of_nat n))%Q.

(** The values [percentage_or_0] and [average_or_0] return. *)
Definition percentage_value (num den : nat) : Q :=
  if Nat.ltb 0 den then (quotient (Z.of_nat num) den * 100)%Q else 0%Q.

Definition average_value (total : Z) (n : nat) : Q :=
  if Nat.ltb 0 n then quotient total n else 0%Q.

(** ** What each report writes *)

Definition rule_followed_lines (db : database) (u : User) : list line :=
  let trades := user_trades db u in
  let closed_count := count (closed_of trades) in
  let open_count := count (open_of trades) in
  [ LClosed closed_count (sum_pnl (closed_of trades));
    LOpen open_count (sum_pnl (open_of trades)) ]
  ++ (if Nat.ltb 0 closed_count
      then [LAvgClosed (quotient (sum_pnl (closed_of trades)) closed_count)]
      else [])
  ++ (if Nat.ltb 0 (closed_count + open_count)
      then [LCompliance
              (quotient (Z.of_nat closed_count) (closed_count + open_count) * 100)%Q]
      else []).

Definition emotion_lines (db : database) (u : User) : list line :=
  let e := calculate_win_rate (emotional_trades db u) in
  let n := calculate_win_rate (non_emotional_trades db u) in
  [ LEmotional (count (emotional_trades db u)) (snd e) (fst e)
      (percentage_value (fst e) (snd e));
    LNonEmotional (count (non_emotional_trades db u)) (snd n) (fst n)
      (percentage_value (fst n) (snd n)) ]
  ++ (if Nat.ltb 0 (snd e) && Nat.ltb 0 (snd n)
      then [LRateDiff (percentage_value (fst e) (snd e)
                       - percentage_value (fst n) (snd n))%Q]
      else []).

(** A mistake is tagged on at least one row of [trades]. *)
Definition tagged (trades : QuerySet) (m : Mistake) : bool :=
  Nat.ltb 0 (count (filter_mistakes_eq m trades)).

(** The entry the loop appends for a tagged mistake. *)
Definition stat_of (trades : QuerySet) (m : Mistake) : mistake_stat :=
  let closed_mistake_trades := closed_of (filter_mistakes_eq m trades) in
  mkStat (name m) (get_category_display m)
         (count (filter_mistakes_eq m trades))
         (average_value (sum_pnl closed_mistake_trades) (count closed_mistake_trades))
         (sum_pnl closed_mistake_trades).

(** The entries in the order of the catalog, before the sort. *)
Definition mistake_stats_of (trades : QuerySet) (all_mistakes : list Mistake)
    : list mistake_stat :=
  map (stat_of trades) (List.filter (tagged trades) all_mistakes).

(** The sorted entries of a user. *)
Definition user_mistake_stats (db : database) (u : User) : list mistake_stat :=
  sort_reverse frequency (mistake_stats_of (user_trades db u) (Mistake_objects db)).

Fixpoint stat_lines (i : nat) (stats : list mistake_stat) : list line :=
  match stats with
  | [] => []
  | stat :: rest =>
      LMistake i (stat_name stat) (stat_category stat)
      :: LMistakeDetail (frequency stat) (avg_pnl stat) (total_pnl stat)
      :: stat_lines (S i) rest
  end.

Definition top_lines (n : nat) (stats : list mistake_stat) : list line :=
  LTopHeader n :: stat_lines 1 (firstn n stats)
  ++ (match stats with [] => [LNoMistakes] | _ => [] end).

Definition category_line (item : string * category_data) : line :=
  LCategory (fst item) (cat_count (snd item))
            (average_value (cat_total_pnl (snd item)) (cat_count (snd item))).

Definition category_lines (stats : list mistake_stat) : list line :=
  map category_line (sorted_categories stats).

Definition mistake_frequency_lines (db : database) (u : User) : list line :=
  top_lines 10 (user_mistake_stats db u)
  ++ LCategoryHeader :: category_lines (user_mistake_stats db u).

Definition run_analytics_lines (db : database) (u : User) : list line :=
  LSectionTitle 1 :: rule_followed_lines db u
  ++ LSectionTitle 2 :: emotion_lines db u
  ++ LSectionTitle 3 :: mistake_frequency_lines db u.

Definition handle_lines (db : database) (option_user : option string) : list line :=
  match option_user with
  | Some (String c s) =>
      match List.find (fun u => String.eqb (username u) (String c s)) (User_objects db) with
      | Some u => LAnalyzingUser (String c s) :: run_analytics_lines db u
      | None => [LUserNotFound (String c s)]
      end
  | _ =>
      flat_map (fun u => if trades_exists db u
                         then LUserHeader (username u) :: run_analytics_lines db u
                         else [])
               (User_objects db)
  end.

Definition script_lines (db : database) (u : User) : list line :=
  [ LBanner; LAnalyzingUser (username u); LTotalTrades (count (user_trades db u));
    LSectionTitle 1 ]
  ++ rule_followed_lines db u
  ++ LSectionTitle 2 :: emotion_lines db u
  ++ LSectionTitle 3 :: top_lines 5 (user_mistake_stats db u)
  ++ [LCompleted].

(** The lines of an output that belong to an entry of the mistake list (the
    heading of the entry and its detail), and the number of entries an
    output holds: that of its headings. *)
Definition is_entry_line (l : line) : bool :=
  match l with
  | LMistake _ _ _ | LMistakeDetail _ _ _ => true
  | _ => false
  end.

Definition is_entry_heading (l : line) : bool :=
  match l with LMistake _ _ _ => true | _ => false end.

Definition entry_lines (ls : list line) : list line := List.filter is_entry_line ls.

Definition entries_written (ls : list line) : nat :=
  List.length (List.filter is_entry_heading ls).

(** ** Partitions and sums *)

(** A trade carries an emotional tag. *)
Definition carries_emotional (db : database) (t : Trade) : bool :=
  existsb (pk_in (emotion_mistake_objects db)) (mistakes t).

(** How many rows of [qs] have the primary key of [t]. *)
Definition occurrences (t : Trade) (qs : QuerySet) : nat :=
  count (List.filter (fun t' => Nat.eqb (trade_pk t') (trade_pk t)) qs).

(** The listed mistakes of one category, and the sums over a list. *)
Definition in_category (cat : string) (stats : list mistake_stat) : list mistake_stat :=
  List.filter (fun s => String.eqb (stat_category s) cat) stats.

Definition sum_frequency (stats : list mistake_stat) : nat :=
  list_sum (map frequency stats).

Definition sum_total_pnl (stats : list mistake_stat) : Z :=
  fold_right Z.add 0 (map total_pnl stats).

Definition add_stat (data : category_data) (stats : list mistake_stat) : category_data :=
  mkCategoryData (cat_count data + sum_frequency stats)
                 (cat_total_pnl data + sum_total_pnl stats).

(** ** Sample data

    The three trades of the specification's worked example (100 @ 10 bought
    and sold at 12, 50 @ 20 sold short and covered at 18, 10 @ 5 still
    open), a trade that has an exit price but no exit date, and a user
    without trades.  Prices and quantities are in 1e-8 units.  The catalog
    is listed by category, then by name. *)

Definition example_db : database :=
  mkDatabase
    [ mkUser 1 "user0" ]
    [ mkTrade 1 1 "buy" 10000000000 1000000000 0 (Some 1200000000) (Some 5) [1%nat; 3%nat];
      mkTrade 2 1 "sell" 5000000000 2000000000 0 (Some 1800000000) (Some 5) [2%nat];
      mkTrade 3 1 "buy" 1000000000 500000000 0 None None [2%nat; 1%nat] ]
    [ mkMistake 2 "Slippage" "execution";
      mkMistake 1 "FOMO trading" "psychology";
      mkMistake 3 "Hesitation" "psychology" ].

Definition partial_exit_trade : Trade :=
  mkTrade 1 1 "buy" 10000000000 1000000000 0 (Some 1200000000) None [].

Definition partial_exit_db : database :=
  mkDatabase [mkUser 1 "user0"] [partial_exit_trade] [].

Definition no_trades_db : database := mkDatabase [mkUser 1 "user0"] [] [].

(** * Validation, the catalog and the views *)

(** ** Validation (journal/models.py)

    [Trade.clean] on a trade whose required columns are set.  Time stamps
    count microseconds, the resolution of a [datetime]; [now] is
    [timezone.now()]. *)

Inductive validation : Type :=
| Valid
| ValidationError (message : string).

(** [timezone.timedelta(minutes=1)] *)
Definition one_minute : Z := 60000000.

(** Truth values of an optional decimal and of an optional [datetime]: a
    decimal is falsy when it is [None] or zero, a [datetime] only when it is
    [None]. *)
Definition decimal_truthy (d : option Z) : bool :=
  match d with Some x => negb (x =? 0) | None => false end.

Definition datetime_truthy (d : option Z) : bool := is_some d.

Definition Trade_clean (now : Z) (t : Trade) : validation :=
  if now + one_minute <? entry_date t
  then ValidationError "Entry date cannot be in the future."
  else if match exit_date t with Some d => now + one_minute <? d | None => false end
  then ValidationError "Exit date cannot be in the future."
  else if match exit_date t with Some d => d <? entry_date t | None => false end
  then ValidationError "Exit date cannot be before entry date."
  else if quantity t <=? 0
  then ValidationError "Quantity must be greater than zero."
  else if entry_price t <=? 0
  then ValidationError "Entry price must be greater than zero."
  else if match exit_price t with Some x => x <=? 0 | None => false end
  then ValidationError "Exit price must be greater than zero."
  else if (decimal_truthy (exit_price t) && negb (datetime_truthy (exit_date t)))
          || (datetime_truthy (exit_date t) && negb (decimal_truthy (exit_price t)))
  then ValidationError
         "Both exit price and exit date must be provided together, or both left empty."
  else Valid.

(** [self.category in dict(choices)], the test of [Mistake.clean]. *)
Definition valid_category (m : Mistake) : Prop :=
  In (category m) (map fst category_choices).

(** [Meta.ordering = ['category', 'name']] of [Mistake]: the order in which
    a query set of mistakes is enumerated, strings compared character by
    character. *)
Definition mistake_leb (a b : Mistake) : bool :=
  match String.compare (category a) (category b) with
  | Lt => true
  | Eq => String.leb (name a) (name b)
  | Gt => false
  end.

Fixpoint insert_ordered (m : Mistake) (l : list Mistake) : list Mistake :=
  match l with
  | [] => [m]
  | m' :: l' => if mistake_leb m m' then m :: l else m' :: insert_ordered m l'
  end.

Definition Meta_ordering (rows : list Mistake) : list Mistake :=
  fold_right insert_ordered [] rows.

(** ** Populating the catalog
    (journal/management/commands/populate_mistakes.py)

    The command works on the table of mistakes with all its columns; the
    reports read the rows through [to_mistake]. *)

Record MistakeRow : Type := mkRow {
  row_pk : nat;
  row_name : string;
  row_description : string;
  row_category : string
}.

Definition to_mistake (r : MistakeRow) : Mistake :=
  mkMistake (row_pk r) (row_name r) (row_category r).

Definition mistakes_data : list (string * string * string) :=
  [
    ("Entered too early",
     "Entered position before confirmation signals",
     "entry");
    ("Entered too late",
     "Missed optimal entry point, entered after move began",
     "entry");
    ("Chased the price",
     "Bought/sold at worse price trying to catch momentum",
     "entry");
    ("Counter-trend entry",
     "Entered against prevailing trend",
     "entry");
    ("Exited too early",
     "Closed profitable trade before target was reached",
     "exit");
    ("Exited too late",
     "Held losing position hoping for recovery",
     "exit");
    ("Pyramid selling",
     "Sold winners too quickly, held losers too long",
     "exit");
    ("No stop loss",
     "Entered without predefined exit plan",
     "exit");
    ("Position too large",
     "Risked too much capital on single trade",
     "position");
    ("Position too small",
     "Risked too little, missed opportunity",
     "position");
    ("Added to loser",
     "Increased position size after loss (revenge trading)",
     "position");
    ("Over-leveraged",
     "Used excessive leverage relative to account size",
     "position");
    ("No risk-reward ratio",
     "Did not consider potential profit vs loss",
     "risk");
    ("Risked >1% per trade",
     "Violated position sizing rules",
     "risk");
    ("No diversification",
     "Too concentrated in one asset/strategy",
     "risk");
    ("Ignored correlation",
     "Did not account for related asset movements",
     "risk");
    ("FOMO trading",
     "Entered due to fear of missing out",
     "psychology");
    ("Revenge trading",
     "Traded to recover losses after bad trade",
     "psychology");
    ("Overconfidence",
     "Traded too aggressively after wins",
     "psychology");
    ("Hesitation",
     "Failed to act on valid signals due to fear",
     "psychology");
    ("Confirmation bias",
     "Only saw evidence supporting desired outcome",
     "psychology");
    ("Insufficient research",
     "Did not properly analyze fundamentals/technicals",
     "analysis");
    ("Ignored news/events",
     "Failed to account for scheduled news or events",
     "analysis");
    ("Over-relied on indicators",
     "Used too many conflicting signals",
     "analysis");
    ("Recency bias",
     "Based decisions on recent events only",
     "analysis");
    ("Slippage",
     "Got worse price than expected due to market movement",
     "execution");
    ("Poor order type",
     "Used market order when limit would have been better",
     "execution");
    ("Partial fill issues",
     "Did not account for partial order fills",
     "execution");
    ("Platform errors",
     "Mistakes due to trading platform issues",
     "execution");
    ("Journal not updated",
     "Failed to record trade details properly",
     "other");
    ("No trading plan",
     "Traded without predefined strategy",
     "other");
    ("Market hours mistake",
     "Traded during unfavorable market hours",
     "other");
    ("Cost ignorance",
     "Did not account for fees, spreads, commissions",
     "other") ].

(** The key an inserted row gets: one more than the largest in use. *)
Definition next_pk (table : list MistakeRow) : nat :=
  S (fold_right Nat.max 0%nat (map row_pk table)).

(** [Mistake.objects.get_or_create(name=name, defaults={...})]: the table
    afterwards and whether a row was created.  The column [name] is unique,
    so the lookup finds at most one row. *)
Definition get_or_create (table : list MistakeRow) (name description category : string)
    : list MistakeRow * bool :=
  match List.find (fun r => String.eqb (row_name r) name) table with
  | Some _ => (table, false)
  | None => (table ++ [mkRow (next_pk table) name description category], true)
  end.

(** The body of the loop, on the table and [created_count]. *)
Definition populate_step (state : list MistakeRow * nat) (entry : string * string * string)
    : list MistakeRow * nat :=
  let '(table, created_count) := state in
  let '(name, description, category) := entry in
  let '(table', created) := get_or_create table name description category in
  (table', if created then S created_count else created_count).

Definition populate (data : list (string * string * string)) (table : list MistakeRow)
    : list MistakeRow * nat :=
  fold_left populate_step data (table, 0%nat).

(** [Command.handle]: the table afterwards and the count that the success
    line shows. *)
Definition populate_handle (table : list MistakeRow) : list MistakeRow * nat :=
  populate mistakes_data table.

(** The names of the entries and whether a table has a name. *)
Definition entry_name (entry : string * string * string) : string := fst (fst entry).

Definition has_name (table : list MistakeRow) (name : string) : bool :=
  existsb (fun r => String.eqb (row_name r) name) table.

(** ** Views (journal/views.py) *)

(** A request: its method and [request.user], [None] for an anonymous
    visitor. *)
Record request : Type := mkRequest {
  method : string;
  request_user : option User
}.

(** [messages.success(...)] after a deletion; the message carries the trade
    whose symbol its text names. *)
Inductive message : Type :=
| MessageDeleted (trade : Trade).

Inductive response : Type :=
| LoginRedirect                              (* [@login_required] *)
| HttpRedirect (to : string)
| RenderDelete (trade : Trade)                 (* 'journal/trade_delete.html' *)
| Http404.

(** [trade.delete()]: the row with the trade's key leaves the table, and its
    tags with it.  The deletion is taken to succeed; the [except] branch of
    the view is for a failure of the database. *)
Definition delete_trade (db : database) (trade : Trade) : database :=
  mkDatabase (User_objects db)
             (List.filter (fun t => negb (Nat.eqb (trade_pk t) (trade_pk trade)))
                          (Trade_objects db))
             (Mistake_objects db).

(** [get_object_or_404(request.user.trades, id=trade_id)] *)
Definition get_user_trade (db : database) (u : User) (trade_id : nat) : option Trade :=
  List.find (fun t => Nat.eqb (trade_pk t) trade_id) (user_trades db u).

(** [trade_delete]; [trade_id] is the integer that the route's converter
    passes, so [int(trade_id)] returns it.  The result is the response, the
    database afterwards and the messages added. *)
Definition trade_delete (db : database) (req : request) (trade_id : nat)
    : response * database * list message :=
  match request_user req with
  | None => (LoginRedirect, db, [])
  | Some u =>
      match get_user_trade db u trade_id with
      | None => (Http404, db, [])
      | Some trade =>
          if String.eqb (method req) "POST"
          then (HttpRedirect "journal:trade_list", delete_trade db trade, [MessageDeleted trade])
          else (RenderDelete trade, db, [])
      end
  end.

(** The summary of [trade_list]: the strategy and rule-followed filters and
    the statistics of the context, on the query set [trades] that the date
    and symbol filters have left; [strategy] and [rule_followed] are
    [request.GET.get(...)].  [context_trades] is the query set the
    statistics are computed on; the template receives it ordered by entry
    date, most recent first. *)
Record list_context : Type := mkListContext {
  context_trades : QuerySet;
  filters_applied : list string;
  total_trades : nat;
  closed_trades : nat;
  open_trades : nat;
  context_total_pnl : Z
}.

Definition trade_list_summary (trades : QuerySet) (filters : list string)
    (strategy rule_followed : option string) : list_context :=
  let '(trades, filters) :=
    match strategy with
    | Some "buy" => (qs_filter (fun t => String.eqb (side t) "buy") trades,
                     filters ++ ["Strategy: Buy"])
    | Some "sell" => (qs_filter (fun t => String.eqb (side t) "sell") trades,
                      filters ++ ["Strategy: Sell"])
    | _ => (trades, filters)
    end in
  let '(trades, filters) :=
    match rule_followed with
    | Some "yes" => (closed_of trades, filters ++ ["Rule followed: Yes (Closed)"])
    | Some "no" => (open_of trades, filters ++ ["Rule followed: No (Open)"])
    | _ => (trades, filters)
    end in
  let closed := closed_of trades in
  let total_pnl := sum_pnl closed in
  mkListContext trades filters (count trades) (count closed)
                (count trades - count closed) total_pnl.

(** ** Notions used in the further statements *)

(** The header that the command writes before the reports of a user. *)
Definition is_user_header (l : line) : bool :=
  match l with LUserHeader _ => true | _ => false end.

Definition not_header (l : line) : Prop := is_user_header l = false.

(** A trade with a positive P&L, and the same with the P&L that the decimal
    context rounds. *)
Definition profitable (t : Trade) : bool :=
  match pnl t with Some p => 0 <? p | None => false end.

Definition profitable_context (t : Trade) : bool :=
  match context_pnl t with Some r => 0 <? fst r | None => false end.

(** A trade carries the tag of a mistake. *)
Definition carries (m : Mistake) (t : Trade) : bool :=
  existsb (Nat.eqb (mistake_pk m)) (mistakes t).

(** The occurrence counts and the total P&Ls of a roll-up, added up. *)
Definition rollup_count (rollup : list (string * category_data)) : nat :=
  list_sum (map (fun item => cat_count (snd item)) rollup).

Definition rollup_total_pnl (rollup : list (string * category_data)) : Z :=
  fold_right Z.add 0 (map (fun item => cat_total_pnl (snd item)) rollup).

(** ** More sample data *)

(** Two users with a trade each, and the requests of the first user to
    delete a trade. *)
Definition own_trade : Trade :=
  mkTrade 1 1 "buy" 10000000000 1000000000 0 (Some 1200000000) (Some 5) [].

Definition foreign_trade : Trade :=
  mkTrade 2 2 "sell" 5000000000 2000000000 0 None None [].

Definition two_user_db : database :=
  mkDatabase [mkUser 1 "user0"; mkUser 2 "user1"] [own_trade; foreign_trade] [].

Definition post_request : request := mkRequest "POST" (Some (mkUser 1 "user0")).

(** A trade whose side is neither of the two choices. *)
Definition short_trade : Trade :=
  mkTrade 4 1 "short" 100000000 1000000000 0 (Some 900000000) (Some 1) [].

(** The catalog that the populate command makes of an empty table, as the
    reports enumerate it. *)
Definition populated_db : database :=
  mkDatabase [] [] (Meta_ordering (map to_mistake (fst (populate_handle [])))).

(** * Properties *)

(** ** Running a computation *)

Lemma yields_ret {A : Type} (a : A) : yields (ret a) a [].
Proof. intros out. unfold ret. now rewrite app_nil_r. Qed.

Lemma yields_write (l : line) : yields (write l) tt [l].
Proof. intros out. reflexivity. Qed.

Lemma yields_bind {A B : Type} (c : io A) (k : A -> io B) a b l1 l2 :
  yields c a l1 -> yields (k a) b l2 -> yields (bind c k) b (l1 ++ l2).
Proof.
  intros Hc Hk out. unfold bind. rewrite Hc, Hk. now rewrite app_assoc.
Qed.

Lemma yields_bind_silent {A B : Type} (c : io A) (k : A -> io B) a b l :
  yields c a [] -> yields (k a) b l -> yields (bind c k) b l.
Proof. intros Hc Hk. now apply (yields_bind c k a b [] l). Qed.

Lemma yields_bind_write {B : Type} (x : line) (k : unit -> io B) b l :
  yields (k tt) b l -> yields (bind (write x) k) b (x :: l).
Proof. intros Hk. apply (yields_bind (write x) k tt b [x] l); [apply yields_write | exact Hk]. Qed.

Lemma yields_truediv (a b : Z) :
  b <> 0 -> yields (truediv a b) (inject_Z a / inject_Z b)%Q [].
Proof.
  intros Hb. unfold truediv. destruct (Z.eqb_spec b 0); [contradiction|].
  apply yields_ret.
Qed.

Lemma yields_when (c : bool) (body : io unit) (ls : list line) :
  (c = true -> yields body tt ls) ->
  yields (when c body) tt (if c then ls else []).
Proof.
  intros H. destruct c; simpl; [now apply H | apply yields_ret].
Qed.

Lemma yields_for_each {A : Type} (f : A -> list line) (body : A -> io unit) l :
  (forall x, In x l -> yields (body x) tt (f x)) ->
  yields (for_each l body) tt (flat_map f l).
Proof.
  induction l as [|x l IH]; intros H; simpl.
  - apply yields_ret.
  - apply yields_bind with (a := tt); [apply H; now left|].
    apply IH. intros y Hy. apply H. now right.
Qed.

Lemma yields_for_each_map {A : Type} (f : A -> line) (body : A -> io unit) l :
  (forall x, In x l -> yields (body x) tt [f x]) ->
  yields (for_each l body) tt (map f l).
Proof.
  induction l as [|x l IH]; intros H; simpl.
  - apply yields_ret.
  - apply (yields_bind _ _ tt tt [f x]); [apply H; now left|].
    apply IH. intros y Hy. apply H. now right.
Qed.

Lemma yields_percentage_or_0 (num den : nat) :
  yields (percentage_or_0 num den) (percentage_value num den) [].
Proof.
  unfold percentage_or_0, percentage_value.
  destruct (Nat.ltb_spec 0 den) as [Hd|Hd]; [|apply yields_ret].
  eapply yields_bind_silent; [apply yields_truediv; lia | apply yields_ret].
Qed.

Lemma yields_average_or_0 (total : Z) (n : nat) :
  yields (average_or_0 total n) (average_value total n) [].
Proof.
  unfold average_or_0, average_value.
  destruct (Nat.ltb_spec 0 n) as [Hd|Hd]; [|apply yields_ret].
  apply yields_truediv; lia.
Qed.

(** ** The lines of the rule-compliance report *)

Lemma rule_followed_analysis_yields (db : database) (u : User) :
  yields (rule_followed_analysis db u) tt (rule_followed_lines db u).
Proof.
  unfold rule_followed_analysis, rule_followed_lines.
  do 2 apply yields_bind_write.
  apply yields_bind with (a := tt).
  - apply yields_when. intros H. apply Nat.ltb_lt in H.
    eapply yields_bind_silent; [apply yields_truediv; unfold count in *; lia|].
    apply yields_write.
  - apply yields_when. intros H. apply Nat.ltb_lt in H.
    eapply yields_bind_silent; [apply yields_truediv; unfold count in *; lia|].
    apply yields_write.
Qed.

(** ** The lines of the emotion report *)

Lemma emotion_win_rate_analysis_yields (db : database) (u : User) :
  yields (emotion_win_rate_analysis db u) tt (emotion_lines db u).
Proof.
  unfold emotion_win_rate_analysis, emotion_lines.
  destruct (calculate_win_rate (emotional_trades db u)) as [ew et].
  destruct (calculate_win_rate (non_emotional_trades db u)) as [nw nt].
  cbn [fst snd].
  eapply yields_bind_silent; [apply yields_percentage_or_0|].
  eapply yields_bind_silent; [apply yields_percentage_or_0|].
  do 2 apply yields_bind_write.
  apply yields_when. intros _. apply yields_write.
Qed.

(** ** The entries of the mistake-frequency report *)

Lemma collect_mistake_stats_yields trades all_mistakes acc :
  yields (collect_mistake_stats trades all_mistakes acc)
         (acc ++ mistake_stats_of trades all_mistakes) [].
Proof.
  revert acc. induction all_mistakes as [|m rest IH]; intros acc.
  - unfold mistake_stats_of. simpl. rewrite app_nil_r. apply yields_ret.
  - unfold mistake_stats_of. cbn [collect_mistake_stats List.filter].
    unfold tagged at 1.
    destruct (Nat.ltb 0 (count (filter_mistakes_eq m trades))).
    + eapply yields_bind_silent; [apply yields_average_or_0|].
      cbn [map].
      replace (acc ++ stat_of trades m :: map (stat_of trades) (List.filter (tagged trades) rest))
        with ((acc ++ [stat_of trades m]) ++ mistake_stats_of trades rest)
        by (now rewrite <- app_assoc).
      apply IH.
    + apply IH.
Qed.

Lemma sorted_mistake_stats_yields (db : database) (u : User) :
  yields (sorted_mistake_stats db u) (user_mistake_stats db u) [].
Proof.
  unfold sorted_mistake_stats.
  eapply yields_bind_silent; [apply collect_mistake_stats_yields|].
  apply yields_ret.
Qed.

Lemma write_stats_yields i stats : yields (write_stats i stats) tt (stat_lines i stats).
Proof.
  revert i. induction stats as [|s rest IH]; intros i; simpl.
  - apply yields_ret.
  - do 2 apply yields_bind_write. apply IH.
Qed.

Lemma write_top_yields n stats : yields (write_top n stats) tt (top_lines n stats).
Proof.
  unfold write_top, top_lines.
  apply yields_bind_write.
  apply yields_bind with (a := tt); [apply write_stats_yields|].
  destruct stats; [apply yields_write | apply yields_ret].
Qed.

Lemma write_category_yields item : yields (write_category item) tt [category_line item].
Proof.
  destruct item as [cat data]. unfold write_category, category_line.
  eapply yields_bind_silent; [apply yields_average_or_0|].
  apply yields_write.
Qed.

Lemma mistake_frequency_analysis_yields (db : database) (u : User) :
  yields (mistake_frequency_analysis db u) tt (mistake_frequency_lines db u).
Proof.
  unfold mistake_frequency_analysis, mistake_frequency_lines.
  eapply yields_bind_silent; [apply sorted_mistake_stats_yields|].
  apply yields_bind with (a := tt); [apply write_top_yields|].
  apply yields_bind_write.
  unfold category_lines.
  apply yields_for_each_map. intros x _. apply write_category_yields.
Qed.

Lemma run_analytics_yields (db : database) (u : User) :
  yields (run_analytics db u) tt (run_analytics_lines db u).
Proof.
  unfold run_analytics, run_analytics_lines.
  apply yields_bind_write.
  apply yields_bind with (a := tt); [apply rule_followed_analysis_yields|].
  apply yields_bind_write.
  apply yields_bind with (a := tt); [apply emotion_win_rate_analysis_yields|].
  apply yields_bind_write.
  apply mistake_frequency_analysis_yields.
Qed.

(** ** The worked examples of the specification *)

(** Three trades, two closed with P&L 200 and 100 and one open: two closed
    trades with 300 in all, one open trade with 0, an average of 150 and a
    compliance rate of 200/3 percent. *)
Example example_rule_compliance :
  rule_followed_analysis example_db (mkUser 1 "user0") []
  = (Return tt,
     [ LClosed 2 3000000000000000000; LOpen 1 0;
       LAvgClosed (3000000000000000000 # 2); LCompliance (200 # 3) ]).
Proof. reflexivity. Qed.

(** A mistake tagged on two closed trades with P&L +50 and -30 has
    frequency 2, total P&L 20 and average P&L 10. *)
Example example_mistake_entry :
  sorted_mistake_stats
    (mkDatabase
       [ mkUser 1 "user0" ]
       [ mkTrade 1 1 "buy" 100000000 1000000000 0 (Some 6000000000) (Some 1) [7%nat];
         mkTrade 2 1 "buy" 100000000 5000000000 0 (Some 2000000000) (Some 2) [7%nat] ]
       [ mkMistake 7 "FOMO trading" "psychology" ])
    (mkUser 1 "user0") []
  = (Return [ mkStat "FOMO trading" "Psychology/Emotion" 2
                (200000000000000000 # 2) 200000000000000000 ],
     []).
Proof. reflexivity. Qed.

(** ** Closed and open: the two selections of the rule-compliance report *)

Lemma closed_of_filter (qs : QuerySet) : closed_of qs = List.filter is_closed qs.
Proof.
  unfold closed_of, qs_exclude, is_closed, exit_price__isnull, exit_date__isnull.
  induction qs as [|t qs IH]; simpl; [reflexivity|].
  destruct (exit_price t); simpl; [|exact IH].
  destruct (exit_date t); simpl; now rewrite IH.
Qed.

Lemma open_of_filter (qs : QuerySet) :
  open_of qs = List.filter (fun t => negb (is_closed t)) qs.
Proof.
  unfold open_of, qs_filter, is_closed, exit_price__isnull, exit_date__isnull.
  induction qs as [|t qs IH]; simpl; [reflexivity|].
  destruct (exit_price t); simpl; [|now rewrite IH].
  destruct (exit_date t); simpl; now rewrite IH.
Qed.

Lemma filter_split_length {A : Type} (p : A -> bool) (l : list A) :
  (List.length (List.filter p l)
   + List.length (List.filter (fun x => negb (p x)) l))%nat = List.length l.
Proof.
  induction l as [|x l IH]; simpl; [reflexivity|].
  destruct (p x); simpl; lia.
Qed.

Lemma closed_open_count (qs : QuerySet) :
  (count (closed_of qs) + count (open_of qs))%nat = count qs.
Proof.
  rewrite closed_of_filter, open_of_filter. apply filter_split_length.
Qed.

Lemma is_closed_true (t : Trade) :
  is_closed t = true <-> exit_price t <> None /\ exit_date t <> None.
Proof.
  unfold is_closed. destruct (exit_price t), (exit_date t); simpl;
    split; try discriminate; try (intros [H1 H2]; congruence); intros; split; discriminate.
Qed.

Lemma is_closed_false (t : Trade) :
  is_closed t = false <-> exit_price t = None \/ exit_date t = None.
Proof.
  unfold is_closed. destruct (exit_price t), (exit_date t); simpl;
    split; try discriminate; try tauto; intros [H|H]; discriminate.
Qed.

Lemma in_closed_of (qs : QuerySet) (t : Trade) :
  In t (closed_of qs) <-> In t qs /\ is_closed t = true.
Proof. rewrite closed_of_filter. apply filter_In. Qed.

Lemma in_open_of (qs : QuerySet) (t : Trade) :
  In t (open_of qs) <-> In t qs /\ is_closed t = false.
Proof.
  rewrite open_of_filter, filter_In. now rewrite negb_true_iff.
Qed.

(** The fold of [sum_pnl] from any start, and its value on trades without
    P&L. *)
Lemma sum_pnl_from (qs : QuerySet) (a : Z) :
  fold_left (fun acc t => acc + or_0 (pnl t)) qs a = a + sum_pnl qs.
Proof.
  unfold sum_pnl. revert a. induction qs as [|t qs IH]; intros a; simpl; [lia|].
  rewrite IH, (IH (or_0 (pnl t))). lia.
Qed.

Lemma sum_pnl_cons (t : Trade) (qs : QuerySet) :
  sum_pnl (t :: qs) = or_0 (pnl t) + sum_pnl qs.
Proof. unfold sum_pnl at 1. simpl. apply sum_pnl_from. Qed.

Lemma sum_pnl_none (qs : QuerySet) :
  Forall (fun t => pnl t = None) qs -> sum_pnl qs = 0.
Proof.
  induction 1 as [|t qs Ht _ IH]; [reflexivity|].
  rewrite sum_pnl_cons, Ht, IH. reflexivity.
Qed.

Lemma pnl_none_iff (t : Trade) : pnl t = None <-> exit_price t = None.
Proof.
  unfold pnl. destruct (exit_price t); [|tauto].
  destruct (String.eqb (side t) "buy"); split; discriminate.
Qed.

Lemma open_consistent_pnl (t : Trade) :
  exit_consistent t -> is_closed t = false -> pnl t = None.
Proof.
  unfold exit_consistent. intros Hc Ho. apply pnl_none_iff.
  apply is_closed_false in Ho. destruct Ho as [H|H]; [exact H|].
  rewrite H in Hc. destruct (exit_price t); [discriminate Hc | reflexivity].
Qed.

(** ** C1 *)




(** ** C2 *)

(** C2: in the rule-compliance report of any user, the closed selection
    (exit price and exit date both present) and the open selection (either
    absent) are complementary: the two counts the report shows add up to the
    number of the user's trades, every trade of the user is in one of the
    two selections, and none is in both. *)
Theorem C2_closed_open_partition :
  forall (db : database) (u : User),
    let trades := user_trades db u in
    (exists closed_pnl open_pnl rest,
        forall out,
          rule_followed_analysis db u out
          = (Return tt,
             out ++ LClosed (count (closed_of trades)) closed_pnl
                 :: LOpen (count (open_of trades)) open_pnl :: rest))
    /\ (count (closed_of trades) + count (open_of trades))%nat = count trades
    /\ (forall t, In t (closed_of trades)
                  <-> In t trades /\ exit_price t <> None /\ exit_date t <> None)
    /\ (forall t, In t (open_of trades)
                  <-> In t trades /\ (exit_price t = None \/ exit_date t = None))
    /\ (forall t, In t trades -> In t (closed_of trades) \/ In t (open_of trades))
    /\ (forall t, ~ (In t (closed_of trades) /\ In t (open_of trades))).
Proof.
  intros db u trades.
  split; [|split; [|split; [|split; [|split]]]].
  - eexists _, _, _. intros out.
    rewrite (rule_followed_analysis_yields db u out). reflexivity.
  - apply closed_open_count.
  - intros t. rewrite in_closed_of, is_closed_true. tauto.
  - intros t. rewrite in_open_of, is_closed_false. tauto.
  - intros t Hin. destruct (is_closed t) eqn:Hc.
    + left. now apply in_closed_of.
    + right. now apply in_open_of.
  - intros t [Hc Ho]. apply in_closed_of in Hc. apply in_open_of in Ho.
    destruct Hc as [_ Hc]. destruct Ho as [_ Ho]. congruence.
Qed.

(** ** The decimal context keeps signs and short coefficients *)

Lemma excess_digits_fuel_spec (fuel : nat) (c : Z) :
  0 <= c < 2 ^ Z.of_nat fuel ->
  0 <= excess_digits_fuel fuel c
  /\ c / 10 ^ excess_digits_fuel fuel c < 10 ^ prec
  /\ (0 < excess_digits_fuel fuel c -> 10 ^ excess_digits_fuel fuel c <= c).
Proof.
  revert c. induction fuel as [|fuel IH]; intros c Hc.
  - simpl in *. split; [lia|]. split; [|lia].
    rewrite Z.div_1_r. unfold prec. lia.
  - cbn [excess_digits_fuel].
    destruct (Z.ltb_spec c (10 ^ prec)) as [Hlt|Hge].
    + split; [lia|]. split; [|lia]. now rewrite Z.div_1_r.
    + assert (Hc' : 0 <= c / 10 < 2 ^ Z.of_nat fuel).
      { split; [apply Z.div_pos; lia|].
        apply Z.div_lt_upper_bound; [lia|].
        rewrite Nat2Z.inj_succ, Z.pow_succ_r in Hc by lia. lia. }
      destruct (IH _ Hc') as (H0 & Hdiv & Hle).
      set (k := excess_digits_fuel fuel (c / 10)) in *.
      split; [lia|].
      assert (Hpow : 10 ^ (1 + k) = 10 * 10 ^ k).
      { rewrite Z.pow_add_r by lia. reflexivity. }
      split.
      * rewrite Hpow, <- Z.div_div by lia. exact Hdiv.
      * intros _. rewrite Hpow.
        destruct (Z.eq_dec k 0) as [Hk|Hk].
        -- rewrite Hk. unfold prec in Hge. simpl. lia.
        -- assert (10 ^ k <= c / 10) by (apply Hle; lia).
           pose proof (Z.mul_div_le c 10). lia.
Qed.

Lemma excess_digits_spec (c : Z) :
  0 <= c ->
  0 <= excess_digits c
  /\ c / 10 ^ excess_digits c < 10 ^ prec
  /\ (0 < excess_digits c -> 10 ^ excess_digits c <= c).
Proof.
  intros Hc. apply excess_digits_fuel_spec. split; [exact Hc|].
  destruct (Z.eq_dec c 0) as [->|Hne]; [simpl; lia|].
  rewrite Z2Nat.id by (pose proof (Z.log2_nonneg c); lia).
  apply Z.log2_spec. lia.
Qed.

Lemma excess_digits_small (c : Z) : c < 10 ^ prec -> excess_digits c = 0.
Proof.
  intros Hc. unfold excess_digits.
  destruct (Z.to_nat (Z.log2 c + 1)) as [|fuel]; [reflexivity|].
  cbn [excess_digits_fuel]. destruct (Z.ltb_spec c (10 ^ prec)); [reflexivity | lia].
Qed.

Lemma round_half_even_lower (c k : Z) : c / 10 ^ k <= round_half_even c k.
Proof.
  unfold round_half_even. destruct (_ || _); lia.
Qed.

Lemma context_fix_magnitude_pos (c : Z) : 0 < c -> 0 < fst (context_fix_magnitude c).
Proof.
  intros Hc. unfold context_fix_magnitude.
  destruct (excess_digits_spec c) as (H0 & _ & Hle); [lia|].
  destruct (Z.eqb_spec (excess_digits c) 0) as [Hk|Hk]; [exact Hc|].
  destruct (Z.eqb_spec (round_half_even c (excess_digits c)) (10 ^ prec)) as [Hq|Hq].
  - simpl. unfold prec. simpl. lia.
  - cbn [fst].
    pose proof (round_half_even_lower c (excess_digits c)) as Hr.
    assert (1 <= c / 10 ^ excess_digits c).
    { apply Z.div_le_lower_bound; [apply Z.pow_pos_nonneg; lia|].
      rewrite Z.mul_1_r. apply Hle. lia. }
    lia.
Qed.

Lemma context_fix_pos (c : Z) : 0 < c -> 0 < fst (context_fix c).
Proof.
  intros Hc. unfold context_fix.
  destruct (Z.ltb_spec c 0); [lia|]. now apply context_fix_magnitude_pos.
Qed.

Lemma context_fix_exact (c : Z) : Z.abs c < 10 ^ prec -> context_fix c = (c, 0).
Proof.
  intros Hc. unfold context_fix, context_fix_magnitude.
  destruct (Z.ltb_spec c 0).
  - rewrite excess_digits_small by lia. simpl. f_equal. lia.
  - rewrite excess_digits_small by lia. reflexivity.
Qed.

Lemma context_mul_pos (a : Z * Z) (b : Z) :
  0 < fst a -> 0 < b -> 0 < fst (context_mul a b).
Proof.
  intros Ha Hb. unfold context_mul.
  pose proof (context_fix_pos (fst a * b)) as H.
  destruct (context_fix (fst a * b)) as [q k]. cbn [fst] in *.
  apply H. now apply Z.mul_pos_pos.
Qed.

Lemma context_mul_exact (c b : Z) :
  Z.abs (c * b) < 10 ^ prec -> context_mul (c, 0) b = (c * b, 0).
Proof.
  intros H. unfold context_mul. cbn [fst snd]. now rewrite context_fix_exact.
Qed.

(** Below 28 digits the context changes nothing: [context_pnl] is [pnl]. *)
Lemma context_pnl_exact (t : Trade) (x : Z) :
  exit_price t = Some x ->
  Z.abs (x - entry_price t) < 10 ^ prec ->
  Z.abs ((x - entry_price t) * quantity t) < 10 ^ prec ->
  context_pnl t = option_map (fun p => (p, 0)) (pnl t).
Proof.
  intros Hx Hd Hp. unfold context_pnl, pnl. rewrite Hx.
  destruct (String.eqb (side t) "buy"); cbn [option_map].
  - rewrite context_fix_exact by exact Hd. now rewrite context_mul_exact.
  - assert (He : entry_price t - x = - (x - entry_price t)) by lia.
    rewrite context_fix_exact by (rewrite He, Z.abs_opp; exact Hd).
    rewrite context_mul_exact; [reflexivity|].
    rewrite He, Z.mul_opp_l, Z.abs_opp. exact Hp.
Qed.

(** ** C8 *)

(** C8: a closed trade with positive quantity has a strictly positive P&L
    when it is a buy that exits above its entry price and when it is a sell
    that exits below it; this holds of the P&L as the product of the
    coefficients and also of the P&L as the decimal context rounds it. *)
Theorem C8_pnl_sign :
  forall (t : Trade) (x : Z),
    is_closed t = true ->
    exit_price t = Some x ->
    0 < quantity t ->
    (side t = "buy" /\ entry_price t < x) \/ (side t = "sell" /\ x < entry_price t) ->
    (exists p, pnl t = Some p /\ 0 < p)
    /\ (exists r, context_pnl t = Some r /\ 0 < fst r).
Proof.
  intros t x _ Hx Hq [[Hs Hlt]|[Hs Hlt]]; unfold pnl, context_pnl; rewrite Hx, Hs; simpl.
  - split.
    + exists ((x - entry_price t) * quantity t). split; [reflexivity|].
      apply Z.mul_pos_pos; lia.
    + eexists. split; [reflexivity|].
      apply context_mul_pos; [apply context_fix_pos; lia | exact Hq].
  - split.
    + exists ((entry_price t - x) * quantity t). split; [reflexivity|].
      apply Z.mul_pos_pos; lia.
    + eexists. split; [reflexivity|].
      apply context_mul_pos; [apply context_fix_pos; lia | exact Hq].
Qed.

Lemma C8_witness :
  (exists p,
      pnl (mkTrade 2 1 "sell" 5000000000 2000000000 0 (Some 1800000000) (Some 5) [2%nat])
      = Some p /\ 0 < p)
  /\ (exists r,
        context_pnl
          (mkTrade 2 1 "sell" 5000000000 2000000000 0 (Some 1800000000) (Some 5) [2%nat])
        = Some r /\ 0 < fst r).
Proof.
  apply (C8_pnl_sign
           (mkTrade 2 1 "sell" 5000000000 2000000000 0 (Some 1800000000) (Some 5) [2%nat])
           1800000000).
  - reflexivity.
  - reflexivity.
  - simpl. lia.
  - right. simpl. split; [reflexivity | lia].
Defined.

(** ** The sort: a permutation, descending, and stable *)

Section PySortFacts.

Context {A : Type} (key : A -> nat).

Lemma insert_desc_perm (x : A) (l : list A) :
  Permutation (insert_desc key x l) (x :: l).
Proof.
  induction l as [|y l IH]; simpl; [apply Permutation_refl|].
  destruct (Nat.ltb (key x) (key y)); [|apply Permutation_refl].
  eapply perm_trans; [apply perm_skip, IH | apply perm_swap].
Qed.

Lemma sort_reverse_perm (l : list A) : Permutation (sort_reverse key l) l.
Proof.
  induction l as [|x l IH]; simpl; [constructor|].
  eapply perm_trans; [apply insert_desc_perm | now apply perm_skip].
Qed.

Lemma sort_reverse_in (l : list A) (x : A) : In x (sort_reverse key l) <-> In x l.
Proof.
  split; apply Permutation_in;
    [apply sort_reverse_perm | apply Permutation_sym, sort_reverse_perm].
Qed.

Lemma insert_desc_sorted (x : A) (l : list A) :
  StronglySorted (desc key) l -> StronglySorted (desc key) (insert_desc key x l).
Proof.
  induction 1 as [|y l Hs IH Hy]; simpl.
  - constructor; [constructor | constructor].
  - destruct (Nat.ltb_spec (key x) (key y)) as [Hlt|Hge].
    + constructor; [exact IH|].
      apply Forall_forall. intros z Hz.
      apply (Permutation_in _ (insert_desc_perm x l)) in Hz.
      destruct Hz as [<-|Hz]; [unfold desc; lia|].
      rewrite Forall_forall in Hy. now apply Hy.
    + constructor; [now constructor|].
      constructor; [exact Hge|].
      apply Forall_forall. intros z Hz. rewrite Forall_forall in Hy.
      specialize (Hy z Hz). unfold desc in *. lia.
Qed.

Lemma sort_reverse_sorted (l : list A) : StronglySorted (desc key) (sort_reverse key l).
Proof.
  induction l as [|x l IH]; simpl; [constructor | now apply insert_desc_sorted].
Qed.

(** Stability: the entries of any one key come out in the order they went
    in. *)
Lemma insert_desc_stable (k : nat) (x : A) (l : list A) :
  StronglySorted (desc key) l ->
  List.filter (fun a => Nat.eqb (key a) k) (insert_desc key x l)
  = List.filter (fun a => Nat.eqb (key a) k) (x :: l).
Proof.
  induction 1 as [|y l Hs IH Hy]; [reflexivity|].
  cbn [insert_desc].
  destruct (Nat.ltb_spec (key x) (key y)) as [Hlt|Hge]; [|reflexivity].
  cbn [List.filter] in *. rewrite IH.
  destruct (Nat.eqb_spec (key x) k) as [Hx|Hx];
    destruct (Nat.eqb_spec (key y) k) as [Hk|Hk]; try reflexivity.
  lia.
Qed.

Lemma sort_reverse_stable (k : nat) (l : list A) :
  List.filter (fun a => Nat.eqb (key a) k) (sort_reverse key l)
  = List.filter (fun a => Nat.eqb (key a) k) l.
Proof.
  induction l as [|x l IH]; [reflexivity|].
  cbn [sort_reverse fold_right].
  rewrite insert_desc_stable by apply sort_reverse_sorted.
  cbn [List.filter]. fold (sort_reverse key l). now rewrite IH.
Qed.

End PySortFacts.

(** ** The command and the script as a whole *)

Lemma handle_yields (db : database) (option_user : option string) :
  yields (handle db option_user) tt (handle_lines db option_user).
Proof.
  assert (Hall : yields
            (for_each (User_objects db)
               (fun u => when (trades_exists db u)
                           (write (LUserHeader (username u)) ;; run_analytics db u)))
            tt
            (flat_map (fun u => if trades_exists db u
                                then LUserHeader (username u) :: run_analytics_lines db u
                                else [])
                      (User_objects db))).
  { apply yields_for_each. intros u _. apply yields_when. intros _.
    apply yields_bind_write. apply run_analytics_yields. }
  unfold handle, handle_lines.
  destruct option_user as [[|c s]|]; try exact Hall.
  unfold User_objects_get.
  destruct (List.find _ (User_objects db)) as [u|]; intros out.
  - unfold try_except, bind at 1, ret.
    pose proof (yields_bind_write (LAnalyzingUser (String c s))
                  (fun _ => run_analytics db u) tt _ (run_analytics_yields db u) out) as H.
    rewrite H. reflexivity.
  - reflexivity.
Qed.

Lemma script_run_analytics_found (db : database) (u : User) :
  List.find (fun u => String.eqb (username u) "user0") (User_objects db) = Some u ->
  yields (script_run_analytics db) tt (script_lines db u).
Proof.
  intros Hu. unfold script_run_analytics, script_lines, User_objects_get. rewrite Hu.
  eapply yields_bind_silent; [apply yields_ret|].
  do 4 apply yields_bind_write.
  apply yields_bind with (a := tt); [apply rule_followed_analysis_yields|].
  apply yields_bind_write.
  apply yields_bind with (a := tt); [apply emotion_win_rate_analysis_yields|].
  apply yields_bind_write.
  eapply yields_bind_silent; [apply sorted_mistake_stats_yields|].
  apply yields_bind with (a := tt); [apply write_top_yields|].
  apply yields_write.
Qed.

Lemma script_run_analytics_missing (db : database) :
  List.find (fun u => String.eqb (username u) "user0") (User_objects db) = None ->
  forall out, script_run_analytics db out = (Raised DoesNotExist, out).
Proof.
  intros Hu out. unfold script_run_analytics, User_objects_get. rewrite Hu. reflexivity.
Qed.

(** ** Entries of the mistake list *)

Lemma in_user_mistake_stats (db : database) (u : User) (s : mistake_stat) :
  In s (user_mistake_stats db u)
  <-> exists m, In m (Mistake_objects db) /\ tagged (user_trades db u) m = true
                /\ s = stat_of (user_trades db u) m.
Proof.
  unfold user_mistake_stats, mistake_stats_of.
  rewrite sort_reverse_in, in_map_iff. split.
  - intros (m & Hs & Hm). apply filter_In in Hm. exists m. now rewrite Hs.
  - intros (m & Hm & Ht & ->). exists m. split; [reflexivity|].
    apply filter_In. now split.
Qed.

Lemma in_rule_followed_lines (db : database) (u : User) (l : line) :
  let trades := user_trades db u in
  let closed_count := count (closed_of trades) in
  let open_count := count (open_of trades) in
  In l (rule_followed_lines db u)
  <-> l = LClosed closed_count (sum_pnl (closed_of trades))
      \/ l = LOpen open_count (sum_pnl (open_of trades))
      \/ ((0 < closed_count)%nat
          /\ l = LAvgClosed (quotient (sum_pnl (closed_of trades)) closed_count))
      \/ ((0 < closed_count + open_count)%nat
          /\ l = LCompliance
                   (quotient (Z.of_nat closed_count) (closed_count + open_count) * 100)%Q).
Proof.
  intros trades closed_count open_count.
  unfold rule_followed_lines. fold trades. fold closed_count. fold open_count.
  rewrite !in_app_iff.
  destruct (Nat.ltb_spec 0 closed_count) as [Hc|Hc];
    destruct (Nat.ltb_spec 0 (closed_count + open_count)) as [Ht|Ht];
    simpl; intuition (try lia; try congruence; auto).
Qed.

(** ** C3 *)



(** ** Wins and win rates *)

Lemma calculate_win_rate_eq (qs : QuerySet) :
  calculate_win_rate qs
  = (count (qs_filter is_win (closed_of qs)), count (closed_of qs)).
Proof.
  unfold calculate_win_rate.
  destruct (Nat.eqb_spec (count (closed_of qs)) 0) as [H|H]; [|reflexivity].
  rewrite H. unfold count in H. apply length_zero_iff_nil in H. now rewrite H.
Qed.

Lemma wins_le_closed (qs : QuerySet) :
  (count (qs_filter is_win (closed_of qs)) <= count (closed_of qs))%nat.
Proof.
  unfold count, qs_filter.
  pose proof (filter_split_length is_win (closed_of qs)). lia.
Qed.

Lemma percentage_value_range (num den : nat) :
  (num <= den)%nat ->
  (0 <= percentage_value num den)%Q /\ (percentage_value num den <= 100)%Q.
Proof.
  intros Hle. unfold percentage_value, quotient.
  destruct (Nat.ltb_spec 0 den) as [Hd|Hd]; [|split; discriminate].
  assert (Hpos : (0 < inject_Z (Z.of_nat den))%Q).
  { rewrite <- (Zlt_Qlt 0). lia. }
  assert (H0 : (0 <= inject_Z (Z.of_nat num) / inject_Z (Z.of_nat den))%Q).
  { apply Qle_shift_div_l; [exact Hpos|]. rewrite Qmult_0_l.
    rewrite <- (Zle_Qle 0). lia. }
  assert (H1 : (inject_Z (Z.of_nat num) / inject_Z (Z.of_nat den) <= 1)%Q).
  { apply Qle_shift_div_r; [exact Hpos|]. rewrite Qmult_1_l.
    rewrite <- Zle_Qle. lia. }
  split.
  - apply Qmult_le_0_compat; [exact H0 | discriminate].
  - setoid_replace 100%Q with (1 * 100)%Q at 2 by reflexivity.
    apply Qmult_le_compat_r; [exact H1 | discriminate].
Qed.

Lemma is_win_iff (t : Trade) :
  is_win t = true
  <-> exists x, exit_price t = Some x
        /\ ((side t = "buy" /\ entry_price t < x) \/ (side t = "sell" /\ x < entry_price t)).
Proof.
  unfold is_win, exit_price__gt_entry, exit_price__lt_entry.
  rewrite orb_true_iff, !andb_true_iff, !String.eqb_eq.
  destruct (exit_price t) as [x|].
  - rewrite !Z.ltb_lt. split.
    + intros H. exists x. split; [reflexivity | exact H].
    + intros (y & Hy & H). inversion Hy. subst y. exact H.
  - split; [intros [[_ H]|[_ H]]; discriminate | intros (y & Hy & _); discriminate].
Qed.

(** ** C4 *)


(** ** Joins and [distinct] over rows with a primary key *)

Lemma row_eqb_pk (a b : Trade) : row_eqb a b = true -> trade_pk a = trade_pk b.
Proof.
  unfold row_eqb. rewrite !andb_true_iff. intros H.
  decompose [and] H. now apply Nat.eqb_eq.
Qed.

Lemma option_Z_eqb_refl (a : option Z) : option_Z_eqb a a = true.
Proof. destruct a; simpl; [apply Z.eqb_refl | reflexivity]. Qed.

Lemma row_eqb_refl (a : Trade) : row_eqb a a = true.
Proof.
  unfold row_eqb.
  now rewrite !Nat.eqb_refl, String.eqb_refl, !Z.eqb_refl, !option_Z_eqb_refl.
Qed.

Lemma existsb_row_eqb_fresh (t : Trade) (qs : QuerySet) :
  ~ In (trade_pk t) (map trade_pk qs) -> existsb (row_eqb t) qs = false.
Proof.
  intros Hn. destruct (existsb (row_eqb t) qs) eqn:He; [|reflexivity].
  apply existsb_exists in He. destruct He as (t' & Hin & Heq).
  exfalso. apply Hn. rewrite (row_eqb_pk _ _ Heq). now apply in_map.
Qed.

Lemma join_mistakes_incl (p : nat -> bool) (qs : QuerySet) (t : Trade) :
  In t (join_mistakes p qs) -> In t qs.
Proof.
  unfold join_mistakes. rewrite in_flat_map. intros (t' & Hin & Hm).
  apply in_map_iff in Hm. destruct Hm as (tag & <- & _). exact Hin.
Qed.

(** Copies of one row in front of rows with other keys collapse to one. *)
Lemma distinct_copies {B : Type} (t : Trade) (l : list B) (rest : QuerySet) :
  ~ In (trade_pk t) (map trade_pk rest) ->
  distinct (map (fun _ => t) l ++ rest)
  = match l with [] => distinct rest | _ => t :: distinct rest end.
Proof.
  intros Hn. induction l as [|b l IH]; [reflexivity|].
  cbn [map app distinct]. rewrite IH. destruct l as [|b' l].
  - cbn [map app]. now rewrite existsb_row_eqb_fresh.
  - cbn [map app existsb]. now rewrite row_eqb_refl.
Qed.

Lemma distinct_nodup (qs : QuerySet) :
  NoDup (map trade_pk qs) -> distinct qs = qs.
Proof.
  induction qs as [|t qs IH]; [reflexivity|].
  cbn [map distinct]. intros H. inversion H as [|? ? Hn Hnd]. subst.
  rewrite existsb_row_eqb_fresh by exact Hn. now rewrite IH.
Qed.

Lemma distinct_join (p : nat -> bool) (qs : QuerySet) :
  NoDup (map trade_pk qs) ->
  distinct (join_mistakes p qs) = List.filter (fun t => existsb p (mistakes t)) qs.
Proof.
  induction qs as [|t qs IH]; [reflexivity|].
  cbn [map]. intros H. inversion H as [|? ? Hn Hnd]. subst.
  unfold join_mistakes. cbn [flat_map List.filter]. fold (join_mistakes p qs).
  rewrite distinct_copies.
  - rewrite (IH Hnd). clear.
    induction (mistakes t) as [|tag tags IHt]; [reflexivity|].
    cbn [List.filter existsb]. destruct (p tag); [reflexivity|]. exact IHt.
  - intros Hin. apply Hn. apply in_map_iff in Hin. destruct Hin as (t' & Hpk & Hin).
    apply join_mistakes_incl in Hin. rewrite <- Hpk. now apply in_map.
Qed.

Lemma nodup_map_filter {A B : Type} (f : A -> B) (p : A -> bool) (l : list A) :
  NoDup (map f l) -> NoDup (map f (List.filter p l)).
Proof.
  induction l as [|x l IH]; [trivial|].
  cbn [map List.filter]. intros H. inversion H as [|? ? Hn Hnd]. subst.
  destruct (p x); [|now apply IH].
  cbn [map]. constructor; [|now apply IH].
  intros Hin. apply Hn. apply in_map_iff in Hin. destruct Hin as (y & Hy & Hin).
  apply filter_In in Hin. rewrite <- Hy. apply in_map. tauto.
Qed.

(** ** The two partitions of the emotion report *)

Lemma carries_emotional_iff (db : database) (t : Trade) :
  carries_emotional db t = true
  <-> exists m, In m (Mistake_objects db) /\ In (name m) emotional_mistakes
                /\ In (mistake_pk m) (mistakes t).
Proof.
  unfold carries_emotional, pk_in, emotion_mistake_objects.
  rewrite existsb_exists. split.
  - intros (tag & Htag & H). apply existsb_exists in H.
    destruct H as (m & Hm & Heq). apply Nat.eqb_eq in Heq. subst tag.
    apply filter_In in Hm. destruct Hm as [Hm Hn].
    apply existsb_exists in Hn. destruct Hn as (s & Hs & Heq).
    apply String.eqb_eq in Heq. subst s. now exists m.
  - intros (m & Hm & Hn & Htag). exists (mistake_pk m). split; [exact Htag|].
    apply existsb_exists. exists m. split; [|apply Nat.eqb_refl].
    apply filter_In. split; [exact Hm|].
    apply existsb_exists. exists (name m). split; [exact Hn | apply String.eqb_refl].
Qed.

Lemma user_trades_nodup (db : database) (u : User) :
  NoDup (map trade_pk (Trade_objects db)) -> NoDup (map trade_pk (user_trades db u)).
Proof. apply nodup_map_filter. Qed.

Lemma emotional_trades_eq (db : database) (u : User) :
  NoDup (map trade_pk (Trade_objects db)) ->
  emotional_trades db u = List.filter (carries_emotional db) (user_trades db u).
Proof.
  intros H. unfold emotional_trades, filter_mistakes_in.
  now rewrite distinct_join by now apply user_trades_nodup.
Qed.

Lemma non_emotional_trades_eq (db : database) (u : User) :
  NoDup (map trade_pk (Trade_objects db)) ->
  non_emotional_trades db u
  = List.filter (fun t => negb (carries_emotional db t)) (user_trades db u).
Proof.
  intros H. unfold non_emotional_trades, exclude_mistakes_in, qs_exclude.
  apply distinct_nodup. apply nodup_map_filter. now apply user_trades_nodup.
Qed.

Lemma filter_filter_split_length {A : Type} (p q : A -> bool) (l : list A) :
  (List.length (List.filter q (List.filter p l))
   + List.length (List.filter q (List.filter (fun x => negb (p x)) l)))%nat
  = List.length (List.filter q l).
Proof.
  induction l as [|x l IH]; [reflexivity|].
  cbn [List.filter]. destruct (p x); cbn [negb List.filter];
    destruct (q x); cbn [List.length]; lia.
Qed.

Lemma occurrences_nodup (t : Trade) (qs : QuerySet) :
  NoDup (map trade_pk qs) -> In t qs -> occurrences t qs = 1%nat.
Proof.
  unfold occurrences, count. induction qs as [|t' qs IH]; [contradiction|].
  cbn [map List.filter]. intros H Hin. inversion H as [|? ? Hn Hnd]. subst.
  destruct Hin as [->|Hin].
  - rewrite Nat.eqb_refl. cbn [List.length]. f_equal.
    apply length_zero_iff_nil.
    destruct (List.filter _ qs) as [|y ys] eqn:Hf; [reflexivity|].
    exfalso. apply Hn.
    assert (Hy : In y (List.filter (fun t' => Nat.eqb (trade_pk t') (trade_pk t)) qs))
      by (rewrite Hf; now left).
    apply filter_In in Hy. destruct Hy as [Hy Heq]. apply Nat.eqb_eq in Heq.
    rewrite <- Heq. now apply in_map.
  - destruct (Nat.eqb_spec (trade_pk t') (trade_pk t)) as [Heq|Hne].
    + exfalso. apply Hn. rewrite Heq. now apply in_map.
    + now apply IH.
Qed.

(** ** C7 *)



(** ** Dictionaries *)

Section DictFacts.

Context {V : Type}.

Lemma dict_get_set_same (d : dict V) (k : string) (v : V) :
  dict_get (dict_set d k v) k = Some v.
Proof.
  induction d as [|[k' v'] d IH]; simpl.
  - now rewrite String.eqb_refl.
  - destruct (String.eqb_spec k' k) as [->|Hne]; simpl.
    + now rewrite String.eqb_refl.
    + destruct (String.eqb_spec k' k); [contradiction | exact IH].
Qed.

Lemma dict_get_set_other (d : dict V) (k k' : string) (v : V) :
  k <> k' -> dict_get (dict_set d k v) k' = dict_get d k'.
Proof.
  intros Hne. induction d as [|[k0 v0] d IH]; simpl.
  - destruct (String.eqb_spec k k'); [contradiction | reflexivity].
  - destruct (String.eqb_spec k0 k) as [->|Hk]; simpl.
    + destruct (String.eqb_spec k k'); [contradiction | reflexivity].
    + now rewrite IH.
Qed.

Lemma dict_set_keys (d : dict V) (k : string) (v : V) :
  map fst (dict_set d k v)
  = if dict_contains d k then map fst d else map fst d ++ [k].
Proof.
  unfold dict_contains. induction d as [|[k' v'] d IH]; simpl; [reflexivity|].
  destruct (String.eqb_spec k' k) as [->|Hne]; simpl; [reflexivity|].
  rewrite IH. now destruct (dict_get d k).
Qed.

Lemma dict_get_none (d : dict V) (k : string) :
  dict_get d k = None <-> ~ In k (map fst d).
Proof.
  induction d as [|[k' v'] d IH]; simpl; [tauto|].
  destruct (String.eqb_spec k' k) as [->|Hne].
  - split; [discriminate | intros H; exfalso; apply H; now left].
  - rewrite IH. tauto.
Qed.

Lemma dict_set_nodup (d : dict V) (k : string) (v : V) :
  NoDup (map fst d) -> NoDup (map fst (dict_set d k v)).
Proof.
  intros H. rewrite dict_set_keys. unfold dict_contains.
  destruct (dict_get d k) eqn:Hg; simpl; [exact H|].
  apply dict_get_none in Hg.
  apply NoDup_rev in H. rewrite <- (rev_involutive (map fst d ++ [k])).
  apply NoDup_rev. rewrite rev_app_distr. simpl. constructor; [|exact H].
  now rewrite <- in_rev.
Qed.

Lemma dict_in_get (d : dict V) (k : string) (v : V) :
  NoDup (map fst d) -> In (k, v) d -> dict_get d k = Some v.
Proof.
  induction d as [|[k' v'] d IH]; simpl; [contradiction|].
  intros H Hin. inversion H as [|? ? Hn Hnd]. subst.
  destruct Hin as [Heq|Hin].
  - inversion Heq. subst. now rewrite String.eqb_refl.
  - destruct (String.eqb_spec k' k) as [->|Hne]; [|now apply IH].
    exfalso. apply Hn. change k with (fst (k, v)). now apply in_map.
Qed.

End DictFacts.

(** ** The category roll-up *)

Lemma add_to_category_get (d : dict category_data) (s : mistake_stat) (cat : string) :
  dict_get (add_to_category d s) cat
  = if String.eqb (stat_category s) cat
    then Some (add_stat (match dict_get d cat with
                         | Some data => data
                         | None => mkCategoryData 0 0
                         end) [s])
    else dict_get d cat.
Proof.
  unfold add_to_category, dict_contains, add_stat, sum_frequency, sum_total_pnl.
  destruct (String.eqb_spec (stat_category s) cat) as [<-|Hne].
  - destruct (dict_get d (stat_category s)) as [data|] eqn:Hg; cbn [is_some].
    + rewrite Hg, dict_get_set_same. simpl. repeat f_equal; lia.
    + rewrite dict_get_set_same, dict_get_set_same. simpl. repeat f_equal; lia.
  - destruct (dict_get d (stat_category s)) as [data|] eqn:Hg; cbn [is_some].
    + rewrite Hg. now apply dict_get_set_other.
    + rewrite dict_get_set_same. rewrite !dict_get_set_other by exact Hne. reflexivity.
Qed.

Lemma add_to_category_nodup (d : dict category_data) (s : mistake_stat) :
  NoDup (map fst d) -> NoDup (map fst (add_to_category d s)).
Proof.
  intros H. unfold add_to_category.
  destruct (dict_contains d (stat_category s)).
  - destruct (dict_get d (stat_category s)); [now apply dict_set_nodup | exact H].
  - destruct (dict_get _ (stat_category s)); now repeat apply dict_set_nodup.
Qed.

Lemma fold_add_to_category_nodup (stats : list mistake_stat) (d : dict category_data) :
  NoDup (map fst d) -> NoDup (map fst (fold_left add_to_category stats d)).
Proof.
  revert d. induction stats as [|s stats IH]; intros d H; [exact H|].
  simpl. apply IH. now apply add_to_category_nodup.
Qed.

Lemma add_stat_app (data : category_data) (l1 l2 : list mistake_stat) :
  add_stat (add_stat data l1) l2 = add_stat data (l1 ++ l2).
Proof.
  unfold add_stat, sum_frequency, sum_total_pnl. simpl.
  rewrite !map_app, list_sum_app, fold_right_app.
  f_equal; [lia|].
  assert (H : forall l a, fold_right Z.add a l = fold_right Z.add 0 l + a).
  { induction l as [|x l IHl]; intros a; simpl; [lia | rewrite IHl; lia]. }
  rewrite (H (map total_pnl l1) (fold_right Z.add 0 (map total_pnl l2))). lia.
Qed.

Lemma fold_add_to_category_get (stats : list mistake_stat) (d : dict category_data)
    (cat : string) :
  dict_get (fold_left add_to_category stats d) cat
  = match in_category cat stats with
    | [] => dict_get d cat
    | _ => Some (add_stat (match dict_get d cat with
                           | Some data => data
                           | None => mkCategoryData 0 0
                           end) (in_category cat stats))
    end.
Proof.
  revert d. induction stats as [|s stats IH]; intros d; [reflexivity|].
  cbn [fold_left]. rewrite IH, add_to_category_get.
  unfold in_category. cbn [List.filter].
  destruct (String.eqb (stat_category s) cat).
  - fold (in_category cat stats).
    destruct (in_category cat stats) as [|s' l]; [reflexivity|].
    now rewrite add_stat_app.
  - reflexivity.
Qed.

Lemma dict_get_in {V : Type} (d : dict V) (k : string) (v : V) :
  dict_get d k = Some v -> In (k, v) d.
Proof.
  induction d as [|[k' v'] d IH]; simpl; [discriminate|].
  destruct (String.eqb_spec k' k) as [->|Hne].
  - intros H. inversion H. now left.
  - intros H. right. now apply IH.
Qed.

Lemma add_stat_zero (stats : list mistake_stat) :
  add_stat (mkCategoryData 0 0) stats
  = mkCategoryData (sum_frequency stats) (sum_total_pnl stats).
Proof. unfold add_stat. cbn [cat_count cat_total_pnl]. f_equal. Qed.

Lemma build_category_stats_nodup (stats : list mistake_stat) :
  NoDup (map fst (build_category_stats stats)).
Proof. apply fold_add_to_category_nodup. constructor. Qed.

(** The entries of the roll-up: one per category that has a listed
    mistake, holding the sums over the listed mistakes of that category. *)
Lemma in_sorted_categories (stats : list mistake_stat) (cat : string)
    (data : category_data) :
  In (cat, data) (sorted_categories stats)
  <-> in_category cat stats <> []
      /\ data = mkCategoryData (sum_frequency (in_category cat stats))
                               (sum_total_pnl (in_category cat stats)).
Proof.
  unfold sorted_categories. rewrite sort_reverse_in. split.
  - intros Hin.
    apply dict_in_get in Hin; [|apply build_category_stats_nodup].
    unfold build_category_stats in Hin. rewrite fold_add_to_category_get in Hin.
    destruct (in_category cat stats) as [|s l]; [discriminate Hin|].
    split; [discriminate|].
    cbn [dict_get] in Hin. rewrite add_stat_zero in Hin. now inversion Hin.
  - intros [Hne ->]. apply dict_get_in.
    unfold build_category_stats. rewrite fold_add_to_category_get.
    destruct (in_category cat stats) as [|s l]; [contradiction|].
    cbn [dict_get]. now rewrite add_stat_zero.
Qed.

Lemma sorted_categories_nodup (stats : list mistake_stat) :
  NoDup (map fst (sorted_categories stats)).
Proof.
  unfold sorted_categories.
  eapply Permutation_NoDup; [|apply build_category_stats_nodup].
  apply Permutation_map, Permutation_sym, sort_reverse_perm.
Qed.

(** ** Occurrence counts of the listed mistakes *)

Lemma in_join_mistakes (p : nat -> bool) (qs : QuerySet) (t : Trade) :
  In t (join_mistakes p qs)
  <-> In t qs /\ exists tag, In tag (mistakes t) /\ p tag = true.
Proof.
  unfold join_mistakes. rewrite in_flat_map. split.
  - intros (t' & Hin & Hm). apply in_map_iff in Hm. destruct Hm as (tag & <- & Htag).
    apply filter_In in Htag. split; [exact Hin|]. now exists tag.
  - intros (Hin & tag & Htag & Hp). exists t. split; [exact Hin|].
    apply in_map_iff. exists tag. split; [reflexivity|]. now apply filter_In.
Qed.

Lemma tagged_iff (trades : QuerySet) (m : Mistake) :
  tagged trades m = true
  <-> exists t, In t trades /\ In (mistake_pk m) (mistakes t).
Proof.
  unfold tagged, count, filter_mistakes_eq. rewrite Nat.ltb_lt. split.
  - intros H. destruct (join_mistakes _ trades) as [|t l] eqn:Hj; [simpl in H; lia|].
    assert (Hin : In t (join_mistakes (Nat.eqb (mistake_pk m)) trades))
      by (rewrite Hj; now left).
    apply in_join_mistakes in Hin. destruct Hin as (Hin & tag & Htag & Heq).
    apply Nat.eqb_eq in Heq. subst tag. now exists t.
  - intros (t & Hin & Htag).
    assert (H : In t (join_mistakes (Nat.eqb (mistake_pk m)) trades)).
    { apply in_join_mistakes. split; [exact Hin|].
      exists (mistake_pk m). split; [exact Htag | apply Nat.eqb_refl]. }
    destruct (join_mistakes _ trades); [contradiction | simpl; lia].
Qed.

Lemma frequency_positive (db : database) (u : User) (s : mistake_stat) :
  In s (user_mistake_stats db u) -> (1 <= frequency s)%nat.
Proof.
  intros H. apply in_user_mistake_stats in H. destruct H as (m & _ & Ht & ->).
  unfold tagged in Ht. apply Nat.ltb_lt in Ht. unfold stat_of. cbn [frequency]. lia.
Qed.

Lemma sum_frequency_positive (stats : list mistake_stat) :
  stats <> [] -> Forall (fun s => (1 <= frequency s)%nat) stats ->
  (1 <= sum_frequency stats)%nat.
Proof.
  intros Hne Hall. destruct stats as [|s l]; [contradiction|].
  inversion Hall. subst. unfold sum_frequency. simpl. lia.
Qed.

Lemma category_count_positive (db : database) (u : User) (cat : string)
    (data : category_data) :
  In (cat, data) (sorted_categories (user_mistake_stats db u)) ->
  (0 < cat_count data)%nat.
Proof.
  intros H. apply in_sorted_categories in H. destruct H as [Hne ->].
  cbn [cat_count]. apply sum_frequency_positive; [exact Hne|].
  apply Forall_forall. intros s Hs. apply filter_In in Hs.
  apply (frequency_positive db u). tauto.
Qed.

(** ** The lines that list mistakes and categories *)

Lemma in_firstn {A : Type} (n : nat) (l : list A) (x : A) :
  In x (firstn n l) -> In x l.
Proof.
  intros H. rewrite <- (firstn_skipn n l). apply in_or_app. now left.
Qed.

Lemma in_stat_lines (i : nat) (stats : list mistake_stat) (l : line) :
  In l (stat_lines i stats) ->
  exists s, In s stats
    /\ ((exists rank, l = LMistake rank (stat_name s) (stat_category s))
        \/ l = LMistakeDetail (frequency s) (avg_pnl s) (total_pnl s)).
Proof.
  revert i. induction stats as [|s stats IH]; intros i; simpl; [contradiction|].
  intros [H|[H|H]].
  - exists s. split; [now left|]. left. now exists i.
  - exists s. split; [now left|]. now right.
  - destruct (IH _ H) as (s' & Hin & Hl). exists s'. split; [now right | exact Hl].
Qed.

Lemma in_top_lines_detail (n : nat) (stats : list mistake_stat) f a t :
  In (LMistakeDetail f a t) (top_lines n stats) ->
  exists s, In s stats /\ f = frequency s /\ a = avg_pnl s /\ t = total_pnl s.
Proof.
  unfold top_lines. intros [H|H]; [discriminate H|].
  apply in_app_or in H. destruct H as [H|H].
  - apply in_stat_lines in H. destruct H as (s & Hin & [[r Hl]|Hl]); [discriminate Hl|].
    inversion Hl. exists s. split; [now apply in_firstn in Hin | tauto].
  - destruct stats; simpl in H; intuition discriminate.
Qed.

Lemma category_line_quotient (db : database) (u : User) (cat : string)
    (data : category_data) :
  In (cat, data) (sorted_categories (user_mistake_stats db u)) ->
  category_line (cat, data)
  = LCategory cat (cat_count data)
      (inject_Z (cat_total_pnl data) / inject_Z (Z.of_nat (cat_count data)))%Q.
Proof.
  intros H. apply category_count_positive in H. apply Nat.ltb_lt in H.
  unfold category_line, average_value, quotient. cbn [fst snd]. now rewrite H.
Qed.

(** ** C5 *)

(** No line of the two other reports and of the category breakdown belongs
    to an entry of the mistake list. *)
Lemma entry_lines_rule_followed (db : database) (u : User) :
  entry_lines (rule_followed_lines db u) = []
  /\ entries_written (rule_followed_lines db u) = 0%nat.
Proof.
  unfold entry_lines, entries_written, rule_followed_lines.
  rewrite !filter_app.
  destruct (Nat.ltb 0 (count (closed_of (user_trades db u))));
    destruct (Nat.ltb 0 _); split; reflexivity.
Qed.

Lemma entry_lines_emotion (db : database) (u : User) :
  entry_lines (emotion_lines db u) = [] /\ entries_written (emotion_lines db u) = 0%nat.
Proof.
  unfold entry_lines, entries_written, emotion_lines. rewrite !filter_app.
  destruct (_ && _); split; reflexivity.
Qed.

Lemma entry_lines_category (stats : list mistake_stat) :
  entry_lines (category_lines stats) = [] /\ entries_written (category_lines stats) = 0%nat.
Proof.
  unfold entry_lines, entries_written, category_lines.
  induction (sorted_categories stats) as [|item l [IH1 IH2]]; [split; reflexivity|].
  cbn [map List.filter category_line is_entry_line is_entry_heading]. now split.
Qed.

Lemma entry_lines_stat_lines (i : nat) (stats : list mistake_stat) :
  entry_lines (stat_lines i stats) = stat_lines i stats
  /\ entries_written (stat_lines i stats) = List.length stats.
Proof.
  unfold entry_lines, entries_written. revert i.
  induction stats as [|s l IH]; intros i; [split; reflexivity|].
  destruct (IH (S i)) as [IH1 IH2].
  cbn [stat_lines List.filter is_entry_line is_entry_heading List.length].
  rewrite IH1, IH2. now split.
Qed.

Lemma entry_lines_top (n : nat) (stats : list mistake_stat) :
  entry_lines (top_lines n stats) = stat_lines 1 (firstn n stats)
  /\ entries_written (top_lines n stats) = Nat.min n (List.length stats).
Proof.
  destruct (entry_lines_stat_lines 1 (firstn n stats)) as [H1 H2].
  unfold entry_lines, entries_written in *. unfold top_lines.
  cbn [List.filter is_entry_line is_entry_heading].
  rewrite !filter_app, length_app, H1, H2, length_firstn.
  destruct stats; cbn [List.filter is_entry_line is_entry_heading List.length];
    rewrite app_nil_r; split; try reflexivity; lia.
Qed.

Lemma entry_lines_app (l1 l2 : list line) :
  entry_lines (l1 ++ l2) = entry_lines l1 ++ entry_lines l2
  /\ entries_written (l1 ++ l2) = (entries_written l1 + entries_written l2)%nat.
Proof.
  unfold entry_lines, entries_written. rewrite !filter_app, length_app. now split.
Qed.

Lemma entry_lines_mistake_frequency (db : database) (u : User) :
  entry_lines (mistake_frequency_lines db u)
  = stat_lines 1 (firstn 10 (user_mistake_stats db u))
  /\ entries_written (mistake_frequency_lines db u)
     = Nat.min 10 (List.length (user_mistake_stats db u)).
Proof.
  unfold mistake_frequency_lines.
  destruct (entry_lines_app (top_lines 10 (user_mistake_stats db u))
              (LCategoryHeader :: category_lines (user_mistake_stats db u))) as [A1 A2].
  destruct (entry_lines_top 10 (user_mistake_stats db u)) as [T1 T2].
  destruct (entry_lines_category (user_mistake_stats db u)) as [C1 C2].
  rewrite A1, A2, T1, T2.
  unfold entry_lines, entries_written in *.
  cbn [List.filter is_entry_line is_entry_heading]. rewrite C1, C2, app_nil_r.
  split; [reflexivity | lia].
Qed.

Lemma entry_lines_script (db : database) (u : User) :
  entry_lines (script_lines db u) = stat_lines 1 (firstn 5 (user_mistake_stats db u))
  /\ entries_written (script_lines db u)
     = Nat.min 5 (List.length (user_mistake_stats db u)).
Proof.
  unfold script_lines.
  destruct (entry_lines_rule_followed db u) as [R1 R2].
  destruct (entry_lines_emotion db u) as [E1 E2].
  destruct (entry_lines_top 5 (user_mistake_stats db u)) as [T1 T2].
  unfold entry_lines, entries_written in *.
  rewrite !filter_app. cbn [List.filter is_entry_line is_entry_heading].
  rewrite !filter_app. cbn [List.filter is_entry_line is_entry_heading].
  rewrite !filter_app. cbn [List.filter is_entry_line is_entry_heading].
  rewrite R1, E1, T1. rewrite !length_app, R2, E2, T2.
  cbn [app List.length]. rewrite app_nil_r. split; [reflexivity | lia].
Qed.



(** ** C6 *)

(** C6: the category roll-up has one entry for each category of a listed
    mistake; its occurrence count is the sum of the occurrence counts of
    the listed mistakes of that category, its total P&L the sum of their
    total P&L, and the average it shows is total P&L divided by occurrence
    count; the entries are written in descending order of occurrence
    count. *)
Theorem C6_category_rollup :
  forall (db : database) (u : User),
    let stats := user_mistake_stats db u in
    let rollup := sorted_categories stats in
    (exists pre, forall out,
        mistake_frequency_analysis db u out
        = (Return tt, out ++ pre ++ LCategoryHeader :: map category_line rollup))
    /\ (forall cat data, In (cat, data) rollup ->
          cat_count data = sum_frequency (in_category cat stats)
          /\ cat_total_pnl data = sum_total_pnl (in_category cat stats)
          /\ category_line (cat, data)
             = LCategory cat (cat_count data)
                 (inject_Z (cat_total_pnl data) / inject_Z (Z.of_nat (cat_count data)))%Q)
    /\ (forall s, In s stats -> exists data, In (stat_category s, data) rollup)
    /\ NoDup (map fst rollup)
    /\ StronglySorted (fun a b => (cat_count (snd b) <= cat_count (snd a))%nat) rollup.
Proof.
  intros db u stats rollup.
  split; [|split; [|split; [|split]]].
  - exists (top_lines 10 stats). intros out.
    rewrite (mistake_frequency_analysis_yields db u out). reflexivity.
  - intros cat data Hin. split; [|split].
    + apply in_sorted_categories in Hin. destruct Hin as [_ ->]. reflexivity.
    + apply in_sorted_categories in Hin. destruct Hin as [_ ->]. reflexivity.
    + now apply (category_line_quotient db u).
  - intros s Hs. eexists. apply in_sorted_categories. split; [|reflexivity].
    assert (H : In s (in_category (stat_category s) stats)).
    { apply filter_In. split; [exact Hs | apply String.eqb_refl]. }
    intros Hnil. rewrite Hnil in H. contradiction.
  - apply sorted_categories_nodup.
  - apply (sort_reverse_sorted (fun item : string * category_data => cat_count (snd item))).
Qed.

Lemma C6_witness :
  In ("Psychology/Emotion", mkCategoryData 3 4000000000000000000)
     (sorted_categories (user_mistake_stats example_db (mkUser 1 "user0")))
  /\ sum_frequency
       (in_category "Psychology/Emotion"
          (user_mistake_stats example_db (mkUser 1 "user0"))) = 3%nat
  /\ sum_total_pnl
       (in_category "Psychology/Emotion"
          (user_mistake_stats example_db (mkUser 1 "user0"))) = 4000000000000000000.
Proof.
  assert (Hin : In ("Psychology/Emotion", mkCategoryData 3 4000000000000000000)
                   (sorted_categories (user_mistake_stats example_db (mkUser 1 "user0"))))
    by (left; reflexivity).
  destruct (C6_category_rollup example_db (mkUser 1 "user0")) as (_ & Hsum & _).
  destruct (Hsum _ _ Hin) as (Hc & Ht & _).
  split; [exact Hin|]. split; [now rewrite <- Hc | now rewrite <- Ht].
Defined.

(** ** C10 *)



(** ** C9 *)



(** * Further properties *)

(** ** The difference of the two win rates *)

Lemma percentage_value_diff_range (a b c d : nat) :
  (a <= b)%nat -> (c <= d)%nat ->
  (-(100) <= percentage_value a b - percentage_value c d)%Q
  /\ (percentage_value a b - percentage_value c d <= 100)%Q.
Proof.
  intros H1 H2.
  destruct (percentage_value_range a b H1) as [Ha0 Ha1].
  destruct (percentage_value_range c d H2) as [Hc0 Hc1].
  split.
  - apply Qle_trans with (0 + - (100))%Q; [discriminate|].
    unfold Qminus. apply Qplus_le_compat; [exact Ha0|]. now apply Qopp_le_compat.
  - apply Qle_trans with (100 + - 0)%Q; [|discriminate].
    unfold Qminus. apply Qplus_le_compat; [exact Ha1|]. now apply Qopp_le_compat.
Qed.

(** X1: the emotion report writes the line with the difference of the two
    win rates exactly when both partitions have a closed trade; the value
    is the emotional win rate minus the non-emotional one, each
    [wins / closed * 100], and lies between -100 and 100. *)
Theorem X1_rate_difference_line :
  forall (db : database) (u : User),
    let e_closed := count (closed_of (emotional_trades db u)) in
    let n_closed := count (closed_of (non_emotional_trades db u)) in
    let e_wins := count (qs_filter is_win (closed_of (emotional_trades db u))) in
    let n_wins := count (qs_filter is_win (closed_of (non_emotional_trades db u))) in
    exists ls,
      (forall out, emotion_win_rate_analysis db u out = (Return tt, out ++ ls))
      /\ (forall d, In (LRateDiff d) ls
                    <-> (0 < e_closed)%nat /\ (0 < n_closed)%nat
                        /\ d = (percentage_value e_wins e_closed
                                - percentage_value n_wins n_closed)%Q)
      /\ (forall d, In (LRateDiff d) ls -> (-(100) <= d)%Q /\ (d <= 100)%Q).
Proof.
  intros db u e_closed n_closed e_wins n_wins.
  exists (emotion_lines db u).
  split; [apply emotion_win_rate_analysis_yields|].
  assert (Hiff : forall d, In (LRateDiff d) (emotion_lines db u)
                    <-> (0 < e_closed)%nat /\ (0 < n_closed)%nat
                        /\ d = (percentage_value e_wins e_closed
                                - percentage_value n_wins n_closed)%Q).
  { intros d. unfold emotion_lines. rewrite !calculate_win_rate_eq. cbn [fst snd].
    fold e_closed n_closed e_wins n_wins.
    rewrite in_app_iff.
    destruct (Nat.ltb_spec 0 e_closed) as [He|He];
      destruct (Nat.ltb_spec 0 n_closed) as [Hn|Hn]; simpl;
      split; intros H;
      repeat match goal with
             | H : _ \/ _ |- _ => destruct H as [H|H]
             | H : _ /\ _ |- _ => destruct H
             | H : False |- _ => contradiction
             | H : LEmotional _ _ _ _ = _ |- _ => discriminate H
             | H : LNonEmotional _ _ _ _ = _ |- _ => discriminate H
             | H : LRateDiff _ = LRateDiff _ |- _ => inversion H; clear H
             end; try lia; auto.
    subst d. right. left. reflexivity. }
  split; [exact Hiff|].
  intros d Hd. apply Hiff in Hd. destruct Hd as (_ & _ & ->).
  apply percentage_value_diff_range; apply wins_le_closed.
Qed.

(** ** The command without a user name *)
Lemma not_header_stat_lines i stats : Forall not_header (stat_lines i stats).
Proof.
  revert i. induction stats as [|s l IH]; intros i; simpl; [constructor|].
  constructor; [reflexivity|]. constructor; [reflexivity | apply IH].
Qed.

Lemma not_header_rule_followed db u : Forall not_header (rule_followed_lines db u).
Proof.
  unfold rule_followed_lines.
  apply Forall_app. split; [repeat constructor|].
  apply Forall_app. split; destruct (Nat.ltb 0 _); repeat constructor.
Qed.

Lemma not_header_emotion db u : Forall not_header (emotion_lines db u).
Proof.
  unfold emotion_lines. apply Forall_app. split; [repeat constructor|].
  destruct (_ && _); repeat constructor.
Qed.

Lemma not_header_top n stats : Forall not_header (top_lines n stats).
Proof.
  unfold top_lines. constructor; [reflexivity|].
  apply Forall_app. split; [apply not_header_stat_lines|].
  destruct stats; repeat constructor.
Qed.

Lemma not_header_run_analytics (db : database) (u : User) :
  Forall not_header (run_analytics_lines db u).
Proof.
  unfold run_analytics_lines, mistake_frequency_lines, category_lines.
  constructor; [reflexivity|].
  apply Forall_app. split; [apply not_header_rule_followed|].
  constructor; [reflexivity|].
  apply Forall_app. split; [apply not_header_emotion|].
  constructor; [reflexivity|].
  apply Forall_app. split; [apply not_header_top|].
  constructor; [reflexivity|].
  apply Forall_forall. intros l Hl. apply in_map_iff in Hl.
  destruct Hl as (item & <- & _). reflexivity.
Qed.

Lemma filter_header_run_analytics (db : database) (u : User) :
  List.filter is_user_header (run_analytics_lines db u) = [].
Proof.
  pose proof (not_header_run_analytics db u) as H.
  induction H as [|l ls Hl _ IH]; [reflexivity|].
  simpl. unfold not_header in Hl. now rewrite Hl.
Qed.

(** X2: an empty user name is no user name: the command then reports on
    every user.  It writes a header for each user who has a trade, in the
    order of the user table, and none for a user without trades; when no
    user has a trade it writes nothing. *)
Theorem X2_all_users_mode :
  forall (db : database),
    (forall out, handle db (Some "") out = handle db None out)
    /\ exists ls,
         (forall out, handle db None out = (Return tt, out ++ ls))
         /\ List.filter is_user_header ls
            = map (fun u => LUserHeader (username u))
                  (List.filter (trades_exists db) (User_objects db))
         /\ ((forall u, In u (User_objects db) -> user_trades db u = []) -> ls = []).
Proof.
  intros db. split; [reflexivity|].
  exists (handle_lines db None). split; [apply handle_yields|].
  unfold handle_lines. split.
  - induction (User_objects db) as [|u us IH]; [reflexivity|].
    cbn [flat_map List.filter]. rewrite filter_app, IH.
    destruct (trades_exists db u); [|reflexivity].
    cbn [List.filter is_user_header map app].
    now rewrite filter_header_run_analytics.
  - intros Hnone. induction (User_objects db) as [|u us IH]; [reflexivity|].
    cbn [flat_map]. rewrite IH by (intros v Hv; apply Hnone; now right).
    unfold trades_exists. rewrite (Hnone u) by now left. reflexivity.
Qed.

(** ** The message of an empty mistake list *)
Lemma mistake_stats_of_nil (trades : QuerySet) (all_mistakes : list Mistake) :
  mistake_stats_of trades all_mistakes = []
  <-> forall m, In m all_mistakes -> tagged trades m = false.
Proof.
  unfold mistake_stats_of. induction all_mistakes as [|m l IH]; simpl.
  - split; [intros _ m [] | reflexivity].
  - destruct (tagged trades m) eqn:Ht; simpl.
    + split; [discriminate|]. intros H. specialize (H m (or_introl eq_refl)). congruence.
    + rewrite IH. split.
      * intros H m' [<-|Hm']; [exact Ht | now apply H].
      * intros H m' Hm'. apply H. now right.
Qed.

Lemma sort_reverse_nil {A : Type} (key : A -> nat) (l : list A) :
  sort_reverse key l = [] <-> l = [].
Proof.
  split; [|intros ->; reflexivity].
  intros H. apply Permutation_nil. rewrite <- H. apply sort_reverse_perm.
Qed.

(** X3: the mistake report of a user consists of its header, the message
    that no mistakes were recorded and the header of the category
    breakdown, exactly when no trade of the user carries a mistake of the
    catalog. *)
Theorem X3_no_mistakes_message :
  forall (db : database) (u : User),
    (forall m t, In m (Mistake_objects db) -> In t (user_trades db u) ->
                 ~ In (mistake_pk m) (mistakes t))
    <-> (forall out, mistake_frequency_analysis db u out
                     = (Return tt, out ++ [LTopHeader 10; LNoMistakes; LCategoryHeader])).
Proof.
  intros db u.
  assert (Hnil : user_mistake_stats db u = []
                 <-> forall m t, In m (Mistake_objects db) -> In t (user_trades db u) ->
                                 ~ In (mistake_pk m) (mistakes t)).
  { unfold user_mistake_stats. rewrite sort_reverse_nil, mistake_stats_of_nil. split.
    - intros H m t Hm Ht Hin. specialize (H m Hm).
      assert (tagged (user_trades db u) m = true) by (apply tagged_iff; now exists t).
      congruence.
    - intros H m Hm. destruct (tagged (user_trades db u) m) eqn:Ht; [|reflexivity].
      apply tagged_iff in Ht. destruct Ht as (t & Ht & Hin). exfalso. now apply (H m t). }
  split.
  - intros H out. apply Hnil in H.
    rewrite (mistake_frequency_analysis_yields db u out).
    unfold mistake_frequency_lines. rewrite H. reflexivity.
  - intros H. apply Hnil.
    specialize (H []). rewrite (mistake_frequency_analysis_yields db u []) in H.
    unfold mistake_frequency_lines, top_lines in H.
    destruct (user_mistake_stats db u) as [|s l]; [reflexivity|].
    exfalso. cbn [firstn stat_lines app] in H. discriminate H.
Qed.

(** ** The roll-up keeps the totals *)
Lemma rollup_dict_set_present (d : dict category_data) (k : string) (old v : category_data) :
  dict_get d k = Some old ->
  (rollup_count (dict_set d k v) + cat_count old)%nat
  = (rollup_count d + cat_count v)%nat
  /\ rollup_total_pnl (dict_set d k v) + cat_total_pnl old
     = rollup_total_pnl d + cat_total_pnl v.
Proof.
  unfold rollup_count, rollup_total_pnl.
  induction d as [|[k' v'] d IH]; simpl; [discriminate|].
  destruct (String.eqb_spec k' k) as [->|Hne]; simpl.
  - intros H. inversion H. subst. split; lia.
  - intros H. destruct (IH H) as [H1 H2]. split; lia.
Qed.

Lemma rollup_dict_set_absent (d : dict category_data) (k : string) (v : category_data) :
  dict_get d k = None ->
  rollup_count (dict_set d k v) = (rollup_count d + cat_count v)%nat
  /\ rollup_total_pnl (dict_set d k v) = rollup_total_pnl d + cat_total_pnl v.
Proof.
  unfold rollup_count, rollup_total_pnl.
  induction d as [|[k' v'] d IH]; simpl; [intros _; split; lia|].
  destruct (String.eqb_spec k' k) as [->|Hne]; simpl; [discriminate|].
  intros H. destruct (IH H) as [H1 H2]. split; lia.
Qed.

Lemma rollup_add_to_category (d : dict category_data) (s : mistake_stat) :
  rollup_count (add_to_category d s) = (rollup_count d + frequency s)%nat
  /\ rollup_total_pnl (add_to_category d s) = rollup_total_pnl d + total_pnl s.
Proof.
  unfold add_to_category, dict_contains.
  destruct (dict_get d (stat_category s)) as [data|] eqn:Hg; cbn [is_some].
  - rewrite Hg.
    destruct (rollup_dict_set_present d (stat_category s) data
                (mkCategoryData (cat_count data + frequency s)
                                (cat_total_pnl data + total_pnl s)) Hg) as [H1 H2].
    cbn [cat_count cat_total_pnl] in *. split; lia.
  - rewrite dict_get_set_same.
    destruct (rollup_dict_set_absent d (stat_category s) (mkCategoryData 0 0) Hg)
      as [H1 H2].
    destruct (rollup_dict_set_present
                (dict_set d (stat_category s) (mkCategoryData 0 0))
                (stat_category s) (mkCategoryData 0 0)
                (mkCategoryData (0 + frequency s) (0 + total_pnl s))
                (dict_get_set_same d (stat_category s) (mkCategoryData 0 0)))
      as [H3 H4].
    cbn [cat_count cat_total_pnl] in *. split; lia.
Qed.

Lemma rollup_fold (stats : list mistake_stat) (d : dict category_data) :
  rollup_count (fold_left add_to_category stats d)
  = (rollup_count d + sum_frequency stats)%nat
  /\ rollup_total_pnl (fold_left add_to_category stats d)
     = rollup_total_pnl d + sum_total_pnl stats.
Proof.
  revert d. induction stats as [|s l IH]; intros d.
  - unfold sum_frequency, sum_total_pnl. simpl. split; lia.
  - cbn [fold_left]. destruct (IH (add_to_category d s)) as [H1 H2].
    destruct (rollup_add_to_category d s) as [H3 H4].
    unfold sum_frequency, sum_total_pnl, list_sum in *. cbn [map fold_right].
    split; lia.
Qed.

Lemma rollup_perm (l l' : list (string * category_data)) :
  Permutation l l' ->
  rollup_count l = rollup_count l' /\ rollup_total_pnl l = rollup_total_pnl l'.
Proof.
  unfold rollup_count, rollup_total_pnl.
  induction 1 as [|x l l' _ IH|x y l|l l' l'' _ IH1 _ IH2]; simpl.
  - split; reflexivity.
  - destruct IH. split; lia.
  - split; lia.
  - destruct IH1, IH2. split; congruence.
Qed.

(** X4: the category roll-up loses and adds nothing: its occurrence counts
    add up to the sum of the frequencies of all listed mistakes, and its
    total P&Ls to the sum of their total P&Ls. *)
Theorem X4_rollup_conserves_totals :
  forall (db : database) (u : User),
    let stats := user_mistake_stats db u in
    rollup_count (sorted_categories stats) = sum_frequency stats
    /\ rollup_total_pnl (sorted_categories stats) = sum_total_pnl stats.
Proof.
  intros db u stats. unfold sorted_categories.
  destruct (rollup_perm _ _ (sort_reverse_perm
              (fun item : string * category_data => cat_count (snd item))
              (build_category_stats stats))) as [H1 H2].
  rewrite H1, H2. unfold build_category_stats.
  destruct (rollup_fold stats []) as [H3 H4]. rewrite H3, H4.
  unfold rollup_count, rollup_total_pnl. simpl. split; lia.
Qed.

(** ** The script and the command *)
Lemma find_username (db : database) (uname : string) (u : User) :
  List.find (fun u => String.eqb (username u) uname) (User_objects db) = Some u ->
  username u = uname /\ In u (User_objects db).
Proof.
  intros H. apply find_some in H. destruct H as [Hin Heq].
  apply String.eqb_eq in Heq. now split.
Qed.



(** ** Wins and profitable trades *)
Lemma context_fix_sign (c : Z) : 0 < fst (context_fix c) <-> 0 < c.
Proof.
  split; [|apply context_fix_pos].
  intros H. destruct (Z.lt_trichotomy c 0) as [Hc|[Hc|Hc]]; [| |exact Hc].
  - exfalso. unfold context_fix in H. destruct (Z.ltb_spec c 0); [|lia].
    pose proof (context_fix_magnitude_pos (- c)) as Hm.
    destruct (context_fix_magnitude (- c)) as [q k]. cbn [fst] in *. lia.
  - subst c. rewrite context_fix_exact in H by (unfold prec; simpl; lia). exact H.
Qed.

Lemma context_mul_sign (a : Z * Z) (b : Z) :
  0 < b -> (0 < fst (context_mul a b) <-> 0 < fst a).
Proof.
  intros Hb. unfold context_mul.
  pose proof (context_fix_sign (fst a * b)) as H.
  destruct (context_fix (fst a * b)) as [q k]. cbn [fst] in *.
  rewrite H. split; intros; nia.
Qed.

Lemma context_pnl_sign (d q : Z) :
  0 < q -> (0 <? fst (context_mul (context_fix d) q)) = (0 <? d).
Proof.
  intros Hq.
  pose proof (context_mul_sign (context_fix d) q Hq) as H1.
  pose proof (context_fix_sign d) as H2.
  destruct (Z.ltb_spec 0 (fst (context_mul (context_fix d) q)));
    destruct (Z.ltb_spec 0 d); try reflexivity; exfalso; intuition lia.
Qed.

Lemma is_win_profitable (t : Trade) :
  0 < quantity t -> side t = "buy" \/ side t = "sell" ->
  is_win t = profitable t /\ is_win t = profitable_context t.
Proof.
  intros Hq Hs.
  unfold is_win, profitable, profitable_context, pnl, context_pnl,
    exit_price__gt_entry, exit_price__lt_entry.
  destruct (exit_price t) as [x|].
  - destruct Hs as [Hs|Hs]; rewrite Hs; cbn [String.eqb Ascii.eqb Bool.eqb andb orb];
      rewrite (context_pnl_sign _ _ Hq).
    + rewrite orb_false_r.
      destruct (Z.ltb_spec (entry_price t) x);
        destruct (Z.ltb_spec 0 ((x - entry_price t) * quantity t));
        destruct (Z.ltb_spec 0 (x - entry_price t));
        split; try reflexivity; nia.
    + destruct (Z.ltb_spec x (entry_price t));
        destruct (Z.ltb_spec 0 ((entry_price t - x) * quantity t));
        destruct (Z.ltb_spec 0 (entry_price t - x));
        split; try reflexivity; nia.
  - now rewrite !andb_false_r.
Qed.

(** X6: for trades with a positive quantity and side buy or sell, the wins
    counted by the win rate, which the query finds by comparing the two
    prices, are the closed trades whose P&L is positive, also for the P&L
    as the decimal context rounds it. *)
Theorem X6_wins_are_profitable_trades :
  forall (qs : QuerySet),
    Forall (fun t => 0 < quantity t /\ (side t = "buy" \/ side t = "sell")) qs ->
    calculate_win_rate qs
    = (count (qs_filter profitable (closed_of qs)), count (closed_of qs))
    /\ qs_filter is_win (closed_of qs) = qs_filter profitable_context (closed_of qs).
Proof.
  intros qs Hall. rewrite Forall_forall in Hall.
  assert (Hwin : forall t, In t (closed_of qs) ->
                   is_win t = profitable t /\ is_win t = profitable_context t).
  { intros t Ht. apply in_closed_of in Ht. destruct Ht as [Ht _].
    destruct (Hall t Ht) as [Hq Hs]. now apply is_win_profitable. }
  split.
  - rewrite calculate_win_rate_eq. f_equal. f_equal.
    unfold qs_filter. apply filter_ext_in. intros t Ht. now apply Hwin.
  - unfold qs_filter. apply filter_ext_in. intros t Ht. now apply Hwin.
Qed.

Lemma X6_witness :
  Forall (fun t => 0 < quantity t /\ (side t = "buy" \/ side t = "sell"))
         (Trade_objects example_db)
  /\ calculate_win_rate (Trade_objects example_db) = (2%nat, 2%nat).
Proof.
  assert (H : Forall (fun t => 0 < quantity t /\ (side t = "buy" \/ side t = "sell"))
                     (Trade_objects example_db)).
  { repeat (apply Forall_cons; [split; [reflexivity | simpl; tauto]|]). apply Forall_nil. }
  split; [exact H|].
  destruct (X6_wins_are_profitable_trades (Trade_objects example_db) H) as [Hrate _].
  rewrite Hrate. reflexivity.
Defined.

(** X7: a trade whose side is neither buy nor sell is never counted as a
    win, whatever its prices, while its P&L is that of a sell. *)
Theorem X7_unknown_side_never_wins :
  forall (t : Trade) (x : Z),
    side t <> "buy" -> side t <> "sell" -> exit_price t = Some x ->
    is_win t = false /\ pnl t = Some ((entry_price t - x) * quantity t).
Proof.
  intros t x Hb Hs Hx. unfold is_win, pnl. rewrite Hx.
  apply String.eqb_neq in Hb. apply String.eqb_neq in Hs. now rewrite Hb, Hs.
Qed.

Lemma X7_witness :
  is_win short_trade = false /\ pnl short_trade = Some 10000000000000000.
Proof.
  apply (X7_unknown_side_never_wins short_trade 900000000).
  - discriminate.
  - discriminate.
  - reflexivity.
Defined.

(** ** The frequency of a mistake *)
Lemma filter_eqb_nodup (pk : nat) (tags : list nat) :
  NoDup tags ->
  List.length (List.filter (Nat.eqb pk) tags)
  = if existsb (Nat.eqb pk) tags then 1%nat else 0%nat.
Proof.
  induction 1 as [|tag tags Hn _ IH]; [reflexivity|].
  cbn [List.filter existsb]. destruct (Nat.eqb_spec pk tag) as [<-|Hne]; cbn [orb].
  - cbn [List.length]. rewrite IH.
    destruct (existsb (Nat.eqb pk) tags) eqn:He; [|reflexivity].
    exfalso. apply existsb_exists in He. destruct He as (y & Hy & Heq).
    apply Nat.eqb_eq in Heq. subst y. contradiction.
  - exact IH.
Qed.



(** ** Validation of a trade *)

Ltac some_inv :=
  match goal with
  | H : Some _ = Some _ |- _ => inversion H; clear H; subst
  | H : None = Some _ |- _ => discriminate H
  end.

(** X9: [Trade.clean] accepts a trade exactly when its entry date and its
    exit date, if any, are at most one minute after now, the exit date is
    not before the entry date, quantity and entry price are positive, the
    exit price, if any, is positive, and exit price and exit date are both
    given or both absent. *)
Theorem X9_clean_accepts :
  forall (now : Z) (t : Trade),
    Trade_clean now t = Valid
    <-> entry_date t <= now + one_minute
        /\ (forall d, exit_date t = Some d -> d <= now + one_minute /\ entry_date t <= d)
        /\ 0 < quantity t
        /\ 0 < entry_price t
        /\ (forall x, exit_price t = Some x -> 0 < x)
        /\ exit_consistent t.
Proof.
  intros now t. unfold Trade_clean, exit_consistent, decimal_truthy, datetime_truthy.
  destruct (Z.ltb_spec (now + one_minute) (entry_date t)) as [H1|H1].
  { split; [discriminate | intros (H & _); lia]. }
  destruct (exit_date t) as [d|]; destruct (exit_price t) as [x|]; cbn [is_some negb andb orb].
  - destruct (Z.ltb_spec (now + one_minute) d) as [H2|H2].
    { split; [discriminate | intros (_ & H & _); specialize (H d eq_refl); lia]. }
    destruct (Z.ltb_spec d (entry_date t)) as [H3|H3].
    { split; [discriminate | intros (_ & H & _); specialize (H d eq_refl); lia]. }
    destruct (Z.leb_spec (quantity t) 0) as [H4|H4].
    { split; [discriminate | intros (_ & _ & H & _); lia]. }
    destruct (Z.leb_spec (entry_price t) 0) as [H5|H5].
    { split; [discriminate | intros (_ & _ & _ & H & _); lia]. }
    destruct (Z.leb_spec x 0) as [H6|H6].
    { split; [discriminate | intros (_ & _ & _ & _ & H & _); specialize (H x eq_refl); lia]. }
    destruct (Z.eqb_spec x 0) as [H7|H7]; [lia|]. cbn [negb andb orb].
    split; [|reflexivity]. intros _.
    repeat split; intros; repeat some_inv; lia.
  - destruct (Z.ltb_spec (now + one_minute) d) as [H2|H2].
    { split; [discriminate | intros (_ & H & _); specialize (H d eq_refl); lia]. }
    destruct (Z.ltb_spec d (entry_date t)) as [H3|H3].
    { split; [discriminate | intros (_ & H & _); specialize (H d eq_refl); lia]. }
    destruct (Z.leb_spec (quantity t) 0) as [H4|H4].
    { split; [discriminate | intros (_ & _ & H & _); lia]. }
    destruct (Z.leb_spec (entry_price t) 0) as [H5|H5].
    { split; [discriminate | intros (_ & _ & _ & H & _); lia]. }
    split; [discriminate | intros (_ & _ & _ & _ & _ & H); discriminate H].
  - destruct (Z.leb_spec (quantity t) 0) as [H4|H4].
    { split; [discriminate | intros (_ & _ & H & _); lia]. }
    destruct (Z.leb_spec (entry_price t) 0) as [H5|H5].
    { split; [discriminate | intros (_ & _ & _ & H & _); lia]. }
    destruct (Z.leb_spec x 0) as [H6|H6].
    { split; [discriminate | intros (_ & _ & _ & _ & H & _); specialize (H x eq_refl); lia]. }
    destruct (Z.eqb_spec x 0) as [H7|H7]; [lia|]. cbn [negb andb orb].
    split; [discriminate | intros (_ & _ & _ & _ & _ & H); discriminate H].
  - destruct (Z.leb_spec (quantity t) 0) as [H4|H4].
    { split; [discriminate | intros (_ & _ & H & _); lia]. }
    destruct (Z.leb_spec (entry_price t) 0) as [H5|H5].
    { split; [discriminate | intros (_ & _ & _ & H & _); lia]. }
    split; [|reflexivity]. intros _.
    repeat split; intros; repeat some_inv; lia.
Qed.

(** ** Validated trades in the reports *)

Lemma Trade_clean_consistent (now : Z) (t : Trade) :
  Trade_clean now t = Valid -> exit_consistent t /\ 0 < quantity t.
Proof.
  unfold Trade_clean, exit_consistent, decimal_truthy, datetime_truthy.
  destruct (now + one_minute <? entry_date t); [discriminate|].
  destruct (exit_date t) as [d|]; destruct (exit_price t) as [x|];
    cbn [is_some negb andb orb];
    repeat match goal with
           | |- context [if (?a <? ?b) then ValidationError _ else _] =>
               destruct (Z.ltb_spec a b); [discriminate|]
           | |- context [if (?a <=? ?b) then ValidationError _ else _] =>
               destruct (Z.leb_spec a b); [discriminate|]
           | |- context [?a =? 0] =>
               destruct (Z.eqb_spec a 0); [lia|]; cbn [negb andb orb]
           end;
    try discriminate; intros _; split; try reflexivity; lia.
Qed.

(** X10: when every trade of a user passes [Trade.clean], a trade is closed
    exactly when it has a P&L, the rule-compliance report shows an open P&L
    of 0, and, the sides being buy or sell, the wins of the win rate are
    the closed trades with a positive P&L. *)
Theorem X10_validated_trades_in_the_reports :
  forall (db : database) (u : User),
    Forall (fun t => exists now, Trade_clean now t = Valid) (user_trades db u) ->
    (forall t, In t (user_trades db u) -> (is_closed t = true <-> pnl t <> None))
    /\ (exists closed_count closed_pnl open_count rest, forall out,
           rule_followed_analysis db u out
           = (Return tt,
              out ++ LClosed closed_count closed_pnl :: LOpen open_count 0 :: rest))
    /\ (Forall (fun t => side t = "buy" \/ side t = "sell") (user_trades db u) ->
        calculate_win_rate (user_trades db u)
        = (count (qs_filter profitable (closed_of (user_trades db u))),
           count (closed_of (user_trades db u)))).
Proof.
  intros db u Hall. rewrite Forall_forall in Hall.
  assert (Hcons : forall t, In t (user_trades db u) -> exit_consistent t /\ 0 < quantity t).
  { intros t Ht. destruct (Hall t Ht) as [now Hnow].
    now apply (Trade_clean_consistent now). }
  split; [|split].
  - intros t Ht. destruct (Hcons t Ht) as [Hc _].
    rewrite pnl_none_iff. unfold exit_consistent in Hc. unfold is_closed.
    destruct (exit_price t), (exit_date t); simpl in *;
      split; intros H; try discriminate; try reflexivity; try congruence.
  - assert (Hz : sum_pnl (open_of (user_trades db u)) = 0).
    { apply sum_pnl_none. apply Forall_forall. intros t Ht.
      apply in_open_of in Ht. destruct Ht as [Ht Ho].
      apply open_consistent_pnl; [|exact Ho]. now apply Hcons. }
    eexists _, _, _, _. intros out.
    rewrite (rule_followed_analysis_yields db u out).
    unfold rule_followed_lines. rewrite Hz. reflexivity.
  - intros Hside. rewrite Forall_forall in Hside.
    rewrite calculate_win_rate_eq. f_equal. f_equal.
    unfold qs_filter. apply filter_ext_in. intros t Ht.
    apply in_closed_of in Ht. destruct Ht as [Ht _].
    apply is_win_profitable; [now apply Hcons | now apply Hside].
Qed.

Lemma X10_witness :
  Forall (fun t => exists now, Trade_clean now t = Valid)
         (user_trades example_db (mkUser 1 "user0"))
  /\ exists closed_count closed_pnl open_count rest, forall out,
       rule_followed_analysis example_db (mkUser 1 "user0") out
       = (Return tt,
          out ++ LClosed closed_count closed_pnl :: LOpen open_count 0 :: rest).
Proof.
  assert (H : Forall (fun t => exists now, Trade_clean now t = Valid)
                     (user_trades example_db (mkUser 1 "user0"))).
  { repeat (apply Forall_cons; [exists 10; reflexivity|]). apply Forall_nil. }
  split; [exact H|].
  destruct (X10_validated_trades_in_the_reports example_db (mkUser 1 "user0") H)
    as (_ & Hreport & _).
  exact Hreport.
Defined.

(** ** Categories and their labels *)

Lemma choices_get_label (m : Mistake) :
  valid_category m ->
  In (category m, get_category_display m) category_choices.
Proof.
  unfold valid_category, get_category_display. intros H. simpl in H.
  repeat (destruct H as [H|H]; [rewrite <- H; simpl; tauto|]). contradiction.
Qed.

(** X11: two mistakes with valid categories have the same label exactly
    when they have the same category, so the roll-up, which is keyed by the
    label, never merges two categories; no label is its own key. *)
Theorem X11_category_labels_are_distinct :
  forall (m1 m2 : Mistake),
    valid_category m1 -> valid_category m2 ->
    (get_category_display m1 = get_category_display m2 <-> category m1 = category m2)
    /\ get_category_display m1 <> category m1.
Proof.
  intros m1 m2 H1 H2.
  pose proof (choices_get_label m1 H1) as L1.
  pose proof (choices_get_label m2 H2) as L2.
  split.
  - split.
    + intros Heq. rewrite Heq in L1. simpl in L1, L2.
      repeat (destruct L1 as [L1|L1]; [inversion L1; clear L1|]); try contradiction;
        repeat (destruct L2 as [L2|L2]; [inversion L2; clear L2|]); try contradiction;
        congruence.
    + unfold get_category_display. now intros ->.
  - simpl in L1.
    repeat (destruct L1 as [L1|L1]; [inversion L1 as [[Hc Hl]]; discriminate|]).
    contradiction.
Qed.

Lemma X11_witness :
  valid_category (mkMistake 1 "FOMO trading" "psychology")
  /\ valid_category (mkMistake 2 "Slippage" "execution")
  /\ get_category_display (mkMistake 1 "FOMO trading" "psychology")
     <> get_category_display (mkMistake 2 "Slippage" "execution").
Proof.
  assert (H1 : valid_category (mkMistake 1 "FOMO trading" "psychology"))
    by (unfold valid_category; simpl; tauto).
  assert (H2 : valid_category (mkMistake 2 "Slippage" "execution"))
    by (unfold valid_category; simpl; tauto).
  split; [exact H1|]. split; [exact H2|].
  destruct (X11_category_labels_are_distinct _ _ H1 H2) as [Hiff _].
  intros Heq. apply Hiff in Heq. discriminate Heq.
Defined.

(** ** The order of the catalog *)

Lemma insert_ordered_perm (m : Mistake) (l : list Mistake) :
  Permutation (insert_ordered m l) (m :: l).
Proof.
  induction l as [|m' l IH]; [apply Permutation_refl|].
  cbn [insert_ordered]. destruct (mistake_leb m m'); [apply Permutation_refl|].
  apply Permutation_trans with (m' :: m :: l); [now apply perm_skip | apply perm_swap].
Qed.

Lemma Meta_ordering_perm (rows : list Mistake) : Permutation (Meta_ordering rows) rows.
Proof.
  unfold Meta_ordering. induction rows as [|m l IH]; [apply Permutation_refl|].
  cbn [fold_right].
  apply Permutation_trans with (m :: fold_right insert_ordered [] l);
    [apply insert_ordered_perm | now apply perm_skip].
Qed.

(** The sample catalog is listed in this order. *)
Example example_db_ordering :
  Meta_ordering (Mistake_objects example_db) = Mistake_objects example_db.
Proof. reflexivity. Qed.

(** ** The populate command *)

Lemma find_has_name (table : list MistakeRow) (name : string) :
  List.find (fun r => String.eqb (row_name r) name) table = None
  <-> has_name table name = false.
Proof.
  unfold has_name. induction table as [|r l IH]; simpl; [tauto|].
  destruct (String.eqb (row_name r) name); simpl; [split; discriminate | exact IH].
Qed.

Lemma has_name_app (l1 l2 : list MistakeRow) (name : string) :
  has_name (l1 ++ l2) name = has_name l1 name || has_name l2 name.
Proof. unfold has_name. apply existsb_app. Qed.

Lemma has_name_in (table : list MistakeRow) (name : string) :
  has_name table name = true <-> In name (map row_name table).
Proof.
  unfold has_name. rewrite existsb_exists, in_map_iff. split.
  - intros (r & Hr & Heq). apply String.eqb_eq in Heq. now exists r.
  - intros (r & Heq & Hr). exists r. split; [exact Hr|]. now apply String.eqb_eq.
Qed.

Lemma next_pk_fresh (table : list MistakeRow) :
  forall r, In r table -> (row_pk r < next_pk table)%nat.
Proof.
  unfold next_pk. induction table as [|r' l IH]; intros r Hr; [contradiction|].
  simpl. destruct Hr as [<-|Hr]; [lia|]. specialize (IH r Hr). lia.
Qed.

(** What a run over [data] does to [table], from any count. *)
Lemma populate_fold (data : list (string * string * string))
    (table : list MistakeRow) (n : nat) :
  exists created,
    fold_left populate_step data (table, n) = (table ++ created, (n + List.length created)%nat)
    /\ (forall entry, In entry data -> has_name (table ++ created) (entry_name entry) = true)
    /\ (forall r, In r created ->
          has_name table (row_name r) = false
          /\ exists entry, In entry data
               /\ r = mkRow (row_pk r) (entry_name entry) (snd (fst entry)) (snd entry))
    /\ (NoDup (map row_pk table) -> NoDup (map row_pk (table ++ created)))
    /\ (NoDup (map row_name table) -> NoDup (map row_name (table ++ created))).
Proof.
  revert table n. induction data as [|[[name description] category] data IH]; intros table n.
  - exists []. cbn [List.length fold_left]. rewrite !app_nil_r, Nat.add_0_r.
    split; [reflexivity|]. split; [intros ? []|]. split; [intros ? []|]. split; auto.
  - cbn [fold_left populate_step]. unfold get_or_create.
    destruct (List.find (fun r => String.eqb (row_name r) name) table) as [r0|] eqn:Hf.
    + destruct (IH table n) as (created & Hrun & Hnames & Hcreated & Hpk & Hnm).
      exists created. split; [exact Hrun|]. split; [|split; [|split; assumption]].
      * intros entry [<-|He]; [|now apply Hnames].
        rewrite has_name_app. apply orb_true_iff. left.
        apply find_some in Hf. unfold has_name. apply existsb_exists.
        exists r0. exact Hf.
      * intros r Hr. destruct (Hcreated r Hr) as (Hno & entry & He & Heq).
        split; [exact Hno|]. exists entry. split; [now right | exact Heq].
    + set (new := mkRow (next_pk table) name description category).
      destruct (IH (table ++ [new]) (S n)) as (created & Hrun & Hnames & Hcreated & Hpk & Hnm).
      apply find_has_name in Hf.
      exists (new :: created). rewrite <- app_assoc in *. cbn [app] in *.
      split; [rewrite Hrun; cbn [List.length]; f_equal; lia|].
      split; [|split; [|split]].
      * intros entry [<-|He]; [|now apply Hnames].
        rewrite has_name_app. apply orb_true_iff. right.
        unfold has_name, entry_name. simpl. now rewrite String.eqb_refl.
      * intros r [<-|Hr].
        -- split; [exact Hf|]. exists (name, description, category).
           split; [now left | reflexivity].
        -- destruct (Hcreated r Hr) as (Hno & entry & He & Heq).
           rewrite has_name_app in Hno. apply orb_false_iff in Hno.
           split; [tauto|]. exists entry. split; [now right | exact Heq].
      * intros Hnd. apply Hpk. rewrite map_app. cbn [map].
        apply NoDup_app; [exact Hnd | repeat constructor; intros [] |].
        intros k Hk [<-|[]]. apply in_map_iff in Hk. destruct Hk as (r & Hr & Hin).
        pose proof (next_pk_fresh table r Hin). simpl in Hr. lia.
      * intros Hnd. apply Hnm. rewrite map_app. cbn [map].
        apply NoDup_app; [exact Hnd | repeat constructor; intros [] |].
        intros k Hk [<-|[]]. apply has_name_in in Hk. simpl in Hk. congruence.
Qed.

Lemma populate_fixed (data : list (string * string * string))
    (table : list MistakeRow) (n : nat) :
  (forall entry, In entry data -> has_name table (entry_name entry) = true) ->
  fold_left populate_step data (table, n) = (table, n).
Proof.
  induction data as [|[[name description] category] data IH]; intros H; [reflexivity|].
  cbn [fold_left populate_step]. unfold get_or_create.
  destruct (List.find (fun r => String.eqb (row_name r) name) table) eqn:Hf.
  - apply IH. intros entry He. apply H. now right.
  - apply find_has_name in Hf.
    specialize (H (name, description, category) (or_introl eq_refl)).
    unfold entry_name in H. simpl in H. congruence.
Qed.

Lemma populate_names (data : list (string * string * string))
    (table : list MistakeRow) (n : nat) :
  NoDup (map entry_name data) ->
  let missing := List.filter (fun nm => negb (has_name table nm)) (map entry_name data) in
  map row_name (fst (fold_left populate_step data (table, n)))
  = map row_name table ++ missing
  /\ snd (fold_left populate_step data (table, n)) = (n + List.length missing)%nat.
Proof.
  revert table n. induction data as [|[[name description] category] data IH];
    intros table n Hnd; cbn zeta.
  - simpl. rewrite app_nil_r. split; [reflexivity | lia].
  - cbn [map] in Hnd. inversion Hnd as [|? ? Hnotin Hnd']. subst.
    cbn [fold_left populate_step map List.filter]. unfold get_or_create.
    change (entry_name (name, description, category)) with name in *.
    destruct (List.find (fun r => String.eqb (row_name r) name) table) eqn:Hf.
    + assert (Hh : has_name table name = true).
      { destruct (has_name table name) eqn:Hh; [reflexivity|].
        apply find_has_name in Hh. congruence. }
      rewrite Hh. cbn [negb]. now apply IH.
    + apply find_has_name in Hf. rewrite Hf. cbn [negb].
      set (new := mkRow (next_pk table) name description category).
      destruct (IH (table ++ [new]) (S n) Hnd') as [H1 H2]. cbn zeta in H1, H2.
      assert (Hsame : List.filter (fun nm => negb (has_name (table ++ [new]) nm))
                                  (map entry_name data)
                      = List.filter (fun nm => negb (has_name table nm))
                                    (map entry_name data)).
      { apply filter_ext_in. intros nm Hnm. rewrite has_name_app.
        replace (has_name [new] nm) with false; [now rewrite orb_false_r|].
        unfold has_name. simpl. symmetry. rewrite orb_false_r.
        apply String.eqb_neq. intros ->. contradiction. }
      rewrite Hsame in H1, H2. rewrite H1, H2, map_app. cbn [map List.length].
      split; [now rewrite <- app_assoc | lia].
Qed.

Lemma mistakes_data_names_nodup : NoDup (map entry_name mistakes_data).
Proof.
  assert (H : nodup string_dec (map entry_name mistakes_data) = map entry_name mistakes_data)
    by (vm_compute; reflexivity).
  rewrite <- H. apply NoDup_nodup.
Qed.

(** X12: after the command has run, every name of its list is in the
    table; the rows that were there before are unchanged and come first;
    the rows added are, in the order of the list, those whose name was
    missing, and their number is the count the command reports. *)
Theorem X12_populate_adds_the_missing_mistakes :
  forall (table : list MistakeRow),
    let missing := List.filter (fun nm => negb (has_name table nm))
                               (map entry_name mistakes_data) in
    exists created,
      populate_handle table = (table ++ created, List.length created)
      /\ map row_name created = missing
      /\ (forall entry, In entry mistakes_data ->
            In (entry_name entry) (map row_name (table ++ created)))
      /\ (forall r, In r created ->
            exists entry, In entry mistakes_data
              /\ r = mkRow (row_pk r) (entry_name entry) (snd (fst entry)) (snd entry))
      /\ (List.length created <= 33)%nat.
Proof.
  intros table missing. unfold populate_handle, populate.
  destruct (populate_fold mistakes_data table 0)
    as (created & Hrun & Hnames & Hcreated & _ & _).
  destruct (populate_names mistakes_data table 0 mistakes_data_names_nodup) as [Hn _].
  cbn zeta in Hn. fold missing in Hn.
  rewrite Hrun in Hn. cbn [fst] in Hn. rewrite map_app in Hn.
  apply app_inv_head in Hn.
  exists created. split; [exact Hrun|]. split; [exact Hn|].
  split; [|split].
  - intros entry He. apply has_name_in. now apply Hnames.
  - intros r Hr. destruct (Hcreated r Hr) as (_ & entry & He & Heq).
    exists entry. split; [exact He | exact Heq].
  - rewrite <- (length_map row_name), Hn. unfold missing.
    eapply Nat.le_trans; [apply filter_length_le|]. rewrite length_map. reflexivity.
Qed.

(** X13: running the command again creates nothing and leaves the table as
    it is. *)
Theorem X13_populate_is_idempotent :
  forall (table : list MistakeRow),
    populate_handle (fst (populate_handle table)) = (fst (populate_handle table), 0%nat).
Proof.
  intros table. unfold populate_handle, populate.
  destruct (populate_fold mistakes_data table 0) as (created & Hrun & Hnames & _).
  rewrite Hrun. cbn [fst]. now apply populate_fixed.
Qed.

(** X14: the command keeps primary keys and names unique. *)
Theorem X14_populate_keeps_keys_unique :
  forall (table : list MistakeRow),
    (NoDup (map row_pk table) -> NoDup (map row_pk (fst (populate_handle table))))
    /\ (NoDup (map row_name table) -> NoDup (map row_name (fst (populate_handle table)))).
Proof.
  intros table. unfold populate_handle, populate.
  destruct (populate_fold mistakes_data table 0) as (created & Hrun & _ & _ & Hpk & Hnm).
  rewrite Hrun. cbn [fst]. now split.
Qed.

Lemma emotional_names_in_data (nm : string) :
  In nm emotional_mistakes -> exists entry, In entry mistakes_data /\ entry_name entry = nm.
Proof.
  intros H.
  assert (Hall : forallb (fun nm => existsb (fun e => String.eqb (entry_name e) nm)
                                            mistakes_data)
                         emotional_mistakes = true) by (vm_compute; reflexivity).
  rewrite forallb_forall in Hall. specialize (Hall nm H).
  apply existsb_exists in Hall. destruct Hall as (e & He & Heq).
  apply String.eqb_eq in Heq. now exists e.
Qed.

(** X15: once the command has run, each of the five emotional names of the
    emotion report is the name of a mistake of the catalog, so the report's
    [name__in] query finds a mistake for each. *)
Theorem X15_populated_catalog_has_the_emotional_mistakes :
  forall (table : list MistakeRow) (db : database),
    Permutation (Mistake_objects db) (map to_mistake (fst (populate_handle table))) ->
    forall nm, In nm emotional_mistakes ->
      exists m, In m (emotion_mistake_objects db) /\ name m = nm.
Proof.
  intros table db Hperm nm Hnm.
  destruct (emotional_names_in_data nm Hnm) as (entry & He & Hname).
  unfold populate_handle, populate in Hperm.
  destruct (populate_fold mistakes_data table 0) as (created & Hrun & Hnames & _).
  rewrite Hrun in Hperm. cbn [fst] in Hperm.
  specialize (Hnames entry He). rewrite Hname in Hnames.
  unfold has_name in Hnames. apply existsb_exists in Hnames.
  destruct Hnames as (r & Hr & Heq). apply String.eqb_eq in Heq.
  exists (to_mistake r). split; [|exact Heq].
  unfold emotion_mistake_objects. apply filter_In. split.
  - apply (Permutation_in _ (Permutation_sym Hperm)). now apply in_map.
  - apply existsb_exists. exists nm. split; [exact Hnm|].
    apply String.eqb_eq. exact Heq.
Qed.

Lemma X15_witness :
  Permutation (Mistake_objects populated_db)
              (map to_mistake (fst (populate_handle [])))
  /\ In "Revenge trading" emotional_mistakes
  /\ exists m, In m (emotion_mistake_objects populated_db) /\ name m = "Revenge trading".
Proof.
  assert (Hp : Permutation (Mistake_objects populated_db)
                           (map to_mistake (fst (populate_handle []))))
    by apply Meta_ordering_perm.
  assert (Hin : In "Revenge trading" emotional_mistakes)
    by (right; left; reflexivity).
  split; [exact Hp|]. split; [exact Hin|].
  exact (X15_populated_catalog_has_the_emotional_mistakes
           [] populated_db Hp "Revenge trading" Hin).
Defined.

(** ** Deleting a trade *)

Lemma get_user_trade_some (db : database) (u : User) (trade_id : nat) (trade : Trade) :
  get_user_trade db u trade_id = Some trade ->
  In trade (Trade_objects db) /\ user trade = user_pk u /\ trade_pk trade = trade_id.
Proof.
  unfold get_user_trade, user_trades, qs_filter. intros H.
  apply find_some in H. destruct H as [Hin Hpk].
  apply filter_In in Hin. destruct Hin as [Hin Hu].
  apply Nat.eqb_eq in Hpk. apply Nat.eqb_eq in Hu. tauto.
Qed.

Lemma filter_other_keys (qs : QuerySet) (trade : Trade) (p : Trade -> bool) :
  NoDup (map trade_pk qs) -> In trade qs -> p trade = false ->
  List.filter p (List.filter (fun t => negb (Nat.eqb (trade_pk t) (trade_pk trade))) qs)
  = List.filter p qs.
Proof.
  intros Hnd Hin Hp. induction qs as [|t l IH]; [reflexivity|].
  cbn [map] in Hnd. inversion Hnd as [|? ? Hnotin Hnd']. subst.
  cbn [List.filter]. destruct (Nat.eqb_spec (trade_pk t) (trade_pk trade)) as [Heq|Hne];
    cbn [negb List.filter].
  - destruct Hin as [->|Hin].
    + rewrite Hp. clear IH. 
      assert (Hsame : List.filter (fun t0 => negb (Nat.eqb (trade_pk t0) (trade_pk trade))) l = l).
      { apply forallb_filter_id. apply forallb_forall. intros t' Ht'.
        apply negb_true_iff, Nat.eqb_neq. intros Heq'. apply Hnotin.
        rewrite <- Heq'. now apply in_map. }
      now rewrite Hsame.
    + exfalso. apply Hnotin. rewrite Heq. now apply in_map.
  - destruct Hin as [->|Hin]; [contradiction|]. now rewrite IH.
Qed.

(** X16: a request never touches the trades of anyone but the user who
    sends it, nor the users and the catalog; an anonymous request changes
    nothing at all. *)
Theorem X16_delete_leaves_other_users_alone :
  forall (db : database) (req : request) (trade_id : nat),
    NoDup (map trade_pk (Trade_objects db)) ->
    let db' := snd (fst (trade_delete db req trade_id)) in
    User_objects db' = User_objects db
    /\ Mistake_objects db' = Mistake_objects db
    /\ (request_user req = None -> db' = db)
    /\ (forall u v, request_user req = Some u -> user_pk v <> user_pk u ->
          user_trades db' v = user_trades db v).
Proof.
  intros db req trade_id Hnd. unfold trade_delete.
  destruct (request_user req) as [u|]; [|cbn; repeat split; congruence].
  destruct (get_user_trade db u trade_id) as [trade|] eqn:Hg;
    [|cbn; repeat split; congruence].
  destruct (String.eqb (method req) "POST"); [|cbn; repeat split; congruence].
  cbn [fst snd]. split; [reflexivity|]. split; [reflexivity|].
  split; [discriminate|].
  intros u' v Hu Hv. inversion Hu. subst u'.
  apply get_user_trade_some in Hg. destruct Hg as (Hin & Howner & _).
  unfold user_trades, qs_filter, delete_trade. cbn [Trade_objects].
  apply filter_other_keys; [exact Hnd | exact Hin|].
  apply Nat.eqb_neq. congruence.
Qed.

Lemma two_user_db_keys : NoDup (map trade_pk (Trade_objects two_user_db)).
Proof. simpl. repeat constructor; simpl; intuition discriminate. Qed.

Lemma X16_witness :
  NoDup (map trade_pk (Trade_objects two_user_db))
  /\ user_trades (snd (fst (trade_delete two_user_db post_request 1))) (mkUser 2 "user1")
     = [foreign_trade].
Proof.
  split; [exact two_user_db_keys|].
  destruct (X16_delete_leaves_other_users_alone two_user_db post_request 1 two_user_db_keys)
    as (_ & _ & _ & Hothers).
  rewrite (Hothers (mkUser 1 "user0") (mkUser 2 "user1") eq_refl); [reflexivity|].
  discriminate.
Defined.

(** X17: asking for a trade that is not among the sender's own trades
    answers 404 and changes nothing, whatever the method. *)
Theorem X17_delete_of_a_foreign_trade_is_404 :
  forall (db : database) (req : request) (u : User) (trade_id : nat),
    request_user req = Some u ->
    (forall t, In t (Trade_objects db) -> trade_pk t = trade_id -> user t <> user_pk u) ->
    trade_delete db req trade_id = (Http404, db, []).
Proof.
  intros db req u trade_id Hu Hforeign. unfold trade_delete. rewrite Hu.
  destruct (get_user_trade db u trade_id) as [trade|] eqn:Hg; [|reflexivity].
  apply get_user_trade_some in Hg. destruct Hg as (Hin & Howner & Hpk).
  exfalso. now apply (Hforeign trade).
Qed.

Lemma X17_witness :
  trade_delete two_user_db post_request 2 = (Http404, two_user_db, []).
Proof.
  apply (X17_delete_of_a_foreign_trade_is_404 two_user_db post_request (mkUser 1 "user0") 2).
  - reflexivity.
  - intros t [<-|[<-|[]]]; simpl; intros H; discriminate.
Defined.

Lemma nodup_pk_eq (qs : QuerySet) (a b : Trade) :
  NoDup (map trade_pk qs) -> In a qs -> In b qs -> trade_pk a = trade_pk b -> a = b.
Proof.
  induction qs as [|t l IH]; [contradiction|].
  cbn [map]. intros Hnd Ha Hb Heq. inversion Hnd as [|? ? Hnotin Hnd']. subst.
  destruct Ha as [->|Ha]; destruct Hb as [->|Hb]; [reflexivity| | |now apply IH].
  - exfalso. apply Hnotin. rewrite Heq. now apply in_map.
  - exfalso. apply Hnotin. rewrite <- Heq. now apply in_map.
Qed.

Lemma get_user_trade_own (db : database) (u : User) (trade : Trade) :
  NoDup (map trade_pk (Trade_objects db)) ->
  In trade (Trade_objects db) -> user trade = user_pk u ->
  get_user_trade db u (trade_pk trade) = Some trade.
Proof.
  intros Hnd Hin Howner. unfold get_user_trade.
  assert (Hmine : In trade (user_trades db u)).
  { apply filter_In. split; [exact Hin | now apply Nat.eqb_eq]. }
  destruct (List.find _ (user_trades db u)) as [t|] eqn:Hf.
  - apply find_some in Hf. destruct Hf as [Ht Hpk]. apply Nat.eqb_eq in Hpk.
    apply filter_In in Ht. destruct Ht as [Ht _].
    f_equal. now apply (nodup_pk_eq (Trade_objects db)).
  - exfalso. apply (find_none _ _ Hf) in Hmine. now rewrite Nat.eqb_refl in Hmine.
Qed.

Lemma get_user_trade_deleted (db : database) (u : User) (trade : Trade) :
  get_user_trade (delete_trade db trade) u (trade_pk trade) = None.
Proof.
  unfold get_user_trade. destruct (List.find _ _) as [t|] eqn:Hf; [|reflexivity].
  exfalso. apply find_some in Hf. destruct Hf as [Ht Hpk].
  apply filter_In in Ht. destruct Ht as [Ht _].
  unfold delete_trade in Ht. cbn [Trade_objects] in Ht.
  apply filter_In in Ht. destruct Ht as [_ Hne].
  rewrite Hpk in Hne. discriminate Hne.
Qed.

(** X18: a POST by the owner removes the trade and nothing else, one row
    less in the table, and redirects to the list; the same request sent
    again answers 404.  Any other method shows the confirmation page and
    leaves the database as it is. *)
Theorem X18_delete_by_the_owner :
  forall (db : database) (req : request) (u : User) (trade : Trade),
    NoDup (map trade_pk (Trade_objects db)) ->
    request_user req = Some u ->
    In trade (Trade_objects db) -> user trade = user_pk u ->
    (method req = "POST" ->
       let db' := delete_trade db trade in
       trade_delete db req (trade_pk trade)
       = (HttpRedirect "journal:trade_list", db', [MessageDeleted trade])
       /\ (forall t, In t (Trade_objects db') <-> In t (Trade_objects db) /\ t <> trade)
       /\ S (count (Trade_objects db')) = count (Trade_objects db)
       /\ trade_delete db' req (trade_pk trade) = (Http404, db', []))
    /\ (method req <> "POST" ->
        trade_delete db req (trade_pk trade) = (RenderDelete trade, db, [])).
Proof.
  intros db req u trade Hnd Hu Hin Howner.
  pose proof (get_user_trade_own db u trade Hnd Hin Howner) as Hget.
  split.
  - intros Hpost db'. split; [|split; [|split]].
    + unfold trade_delete. rewrite Hu, Hget, Hpost. reflexivity.
    + intros t. unfold db', delete_trade. cbn [Trade_objects].
      rewrite filter_In, negb_true_iff, Nat.eqb_neq. split.
      * intros [Ht Hne]. split; [exact Ht|]. intros ->. now apply Hne.
      * intros [Ht Hne]. split; [exact Ht|]. intros Heq. apply Hne.
        now apply (nodup_pk_eq (Trade_objects db)).
    + unfold db', delete_trade, count. cbn [Trade_objects].
      pose proof (filter_split_length
                    (fun t => Nat.eqb (trade_pk t) (trade_pk trade)) (Trade_objects db)) as Hs.
      pose proof (occurrences_nodup trade (Trade_objects db) Hnd Hin) as Ho.
      unfold occurrences, count in Ho. lia.
    + unfold trade_delete. rewrite Hu. unfold db'.
      now rewrite get_user_trade_deleted.
  - intros Hget'. unfold trade_delete. rewrite Hu, Hget.
    apply String.eqb_neq in Hget'. now rewrite Hget'.
Qed.

Lemma X18_witness :
  trade_delete two_user_db post_request 1
  = (HttpRedirect "journal:trade_list", delete_trade two_user_db own_trade,
     [MessageDeleted own_trade])
  /\ Trade_objects (delete_trade two_user_db own_trade) = [foreign_trade]
  /\ trade_delete (delete_trade two_user_db own_trade) post_request 1
     = (Http404, delete_trade two_user_db own_trade, []).
Proof.
  destruct (X18_delete_by_the_owner two_user_db post_request (mkUser 1 "user0") own_trade
              two_user_db_keys eq_refl (or_introl eq_refl) eq_refl)
    as [Hpost _].
  destruct (Hpost eq_refl) as (Hresp & _ & _ & Hagain).
  split; [exact Hresp|]. split; [reflexivity | exact Hagain].
Defined.

(** ** The summary of the trade list *)

Lemma closed_of_closed (qs : QuerySet) : closed_of (closed_of qs) = closed_of qs.
Proof.
  rewrite !closed_of_filter. induction qs as [|t l IH]; [reflexivity|].
  cbn [List.filter]. destruct (is_closed t) eqn:Hc; [|exact IH].
  cbn [List.filter]. now rewrite Hc, IH.
Qed.

Lemma closed_of_open (qs : QuerySet) : closed_of (open_of qs) = [].
Proof.
  rewrite closed_of_filter, open_of_filter. induction qs as [|t l IH]; [reflexivity|].
  cbn [List.filter]. destruct (is_closed t) eqn:Hc; cbn [negb List.filter]; [exact IH|].
  now rewrite Hc.
Qed.

Lemma open_count_minus (qs : QuerySet) :
  (count qs - count (closed_of qs))%nat = count (open_of qs).
Proof. pose proof (closed_open_count qs). lia. Qed.

(** X19: in the summary of the trade list the closed and the open count add
    up to the total, the open count is the number of trades that the open
    filter of the reports selects, and the total P&L is that of the closed
    trades shown.  Without a strategy and a rule-followed parameter the
    numbers for a user's trades are the counts and the closed P&L that the
    rule-compliance report writes. *)
Theorem X19_list_summary_agrees_with_the_report :
  forall (db : database) (u : User) (trades : QuerySet) (filters : list string)
         (strategy rule_followed : option string),
    let c := trade_list_summary trades filters strategy rule_followed in
    (closed_trades c + open_trades c)%nat = total_trades c
    /\ total_trades c = count (context_trades c)
    /\ closed_trades c = count (closed_of (context_trades c))
    /\ open_trades c = count (open_of (context_trades c))
    /\ context_total_pnl c = sum_pnl (closed_of (context_trades c))
    /\ exists rest, forall out,
         let c0 := trade_list_summary (user_trades db u) [] None None in
         rule_followed_analysis db u out
         = (Return tt,
            out ++ LClosed (closed_trades c0) (context_total_pnl c0)
                :: LOpen (open_trades c0) (sum_pnl (open_of (user_trades db u)))
                :: rest).
Proof.
  intros db u trades filters strategy rule_followed c.
  assert (Hc : exists qs fs, c = mkListContext qs fs (count qs) (count (closed_of qs))
                                   (count qs - count (closed_of qs))
                                   (sum_pnl (closed_of qs))).
  { unfold c, trade_list_summary.
    destruct (match strategy with
              | Some "buy" => _ | Some "sell" => _ | _ => _ end) as [qs1 fs1].
    destruct (match rule_followed with
              | Some "yes" => _ | Some "no" => _ | _ => _ end) as [qs2 fs2].
    now exists qs2, fs2. }
  destruct Hc as (qs & fs & ->). cbn [closed_trades open_trades total_trades
                                       context_trades context_total_pnl].
  pose proof (closed_open_count qs) as Hsum.
  split; [lia|]. split; [reflexivity|]. split; [reflexivity|].
  split; [apply open_count_minus|]. split; [reflexivity|].
  eexists. intros out. cbn zeta. unfold trade_list_summary.
  cbn [closed_trades open_trades context_total_pnl].
  rewrite open_count_minus.
  rewrite (rule_followed_analysis_yields db u out). reflexivity.
Qed.

(** X20: with rule_followed=yes the list shows closed trades only, so its
    open count is 0; with rule_followed=no it shows open trades only, and
    both its closed count and its total P&L are 0, also when some open
    trade has an exit price.  A strategy other than buy and sell is
    ignored. *)
Theorem X20_list_filters :
  forall (trades : QuerySet) (filters : list string) (strategy : option string),
    let yes := trade_list_summary trades filters strategy (Some "yes") in
    let no := trade_list_summary trades filters strategy (Some "no") in
    (open_trades yes = 0%nat /\ closed_trades yes = total_trades yes
     /\ forall t, In t (context_trades yes) -> is_closed t = true)
    /\ (closed_trades no = 0%nat /\ context_total_pnl no = 0
        /\ open_trades no = total_trades no
        /\ forall t, In t (context_trades no) -> is_closed t = false)
    /\ (strategy <> Some "buy" -> strategy <> Some "sell" ->
        forall rule_followed,
          trade_list_summary trades filters strategy rule_followed
          = trade_list_summary trades filters None rule_followed).
Proof.
  intros trades filters strategy yes no.
  split; [|split].
  - unfold yes, trade_list_summary.
    destruct (match strategy with
              | Some "buy" => _ | Some "sell" => _ | _ => _ end) as [qs fs].
    cbn [open_trades closed_trades total_trades context_trades].
    rewrite closed_of_closed. split; [lia|]. split; [reflexivity|].
    intros t Ht. now apply in_closed_of in Ht.
  - unfold no, trade_list_summary.
    destruct (match strategy with
              | Some "buy" => _ | Some "sell" => _ | _ => _ end) as [qs fs].
    cbn [open_trades closed_trades total_trades context_trades context_total_pnl].
    rewrite closed_of_open. cbn. split; [reflexivity|]. split; [reflexivity|].
    split; [lia|]. intros t Ht. now apply in_open_of in Ht.
  - intros Hb Hs rule_followed. unfold trade_list_summary.
    replace (match strategy with
             | Some "buy" => (qs_filter (fun t => String.eqb (side t) "buy") trades,
                              filters ++ ["Strategy: Buy"])
             | Some "sell" => (qs_filter (fun t => String.eqb (side t) "sell") trades,
                               filters ++ ["Strategy: Sell"])
             | _ => (trades, filters)
             end) with (trades, filters); [reflexivity|].
    destruct strategy as [s|]; [|reflexivity].
    destruct (string_dec s "buy") as [->|Hnb]; [congruence|].
    destruct (string_dec s "sell") as [->|Hns]; [congruence|].
    clear Hb Hs.
    repeat match goal with
           | |- context [match ?x with EmptyString => _ | String _ _ => _ end] =>
               is_var x; destruct x
           | |- context [match ?a with Ascii.Ascii _ _ _ _ _ _ _ _ => _ end] =>
               is_var a; destruct a
           | |- context [if ?b then _ else _] => is_var b; destruct b
           end; try reflexivity; congruence.
Qed.
